(** * OpenLST encoder/framer ([python/openlst/openlst_mod.py])

    A shallow embedding of the GNU Radio block [openlst_mod]: its
    constructor, the message handler [handle_msg] that frames a raw packet
    and queues it, and the scheduler callback [work] that hands queued
    entries to the output buffer.

    Python values are modelled as follows.
    - an [int] is a [Z]; a [bytes]/[bytearray] value is a [list Z] all of
      whose elements lie in [0, 256) (the constructors check it and raise
      [ValueError] otherwise, as Python does);
    - an exception is a constructor of [exn]; a computation that may raise
      lives in [result];
    - the instance attributes are the fields of the record [openlst_mod];
      methods take the instance and return the updated one;
    - [crc16], [whiten], [encode_fec] (imported from sibling modules), the
      NumPy slice store used by [work] and the interpreter's list
      allocator are collaborators, packaged in the class [Collaborators];
      [numpy_setslice] records what NumPy does with the store of line 120.

    Integers are those of 64-bit CPython: a repetition count must fit a
    signed 64-bit index.  Building one of the lists of lines 74-75 raises
    [MemoryError] when the allocator refuses it; every other allocation
    is taken to succeed. *)

From Stdlib Require Import ZArith List Bool Lia.
Import ListNotations.
Local Open Scope Z_scope.

(** ** Exceptions and the error monad *)

Inductive exn : Type :=
| ValueError
| OverflowError
| MemoryError.

Inductive result (A : Type) : Type :=
| Raise (e : exn)
| Return (a : A).
Arguments Raise {A} e.
Arguments Return {A} a.

Definition bind {A B : Type} (m : result A) (k : A -> result B) : result B :=
  match m with
  | Raise e => Raise e
  | Return a => k a
  end.

Notation "x <- m ;; k" := (bind m (fun x => k))
  (at level 61, m at next level, right associativity).

(** ** Python built-ins used by the block *)

Definition bytes := list Z.

Definition is_byte (b : Z) : bool := (0 <=? b) && (b <? 256).

(** [bytes(l)] and [bytearray(l)] on a list of ints. *)
Definition py_bytes (l : list Z) : result bytes :=
  if forallb is_byte l then Return l else Raise ValueError.

(** [n] copies of [l], one after the other; none when [n <= 0]. *)
Definition repeated {A : Type} (l : list A) (n : Z) : list A :=
  concat (repeat l (Z.to_nat n)).

(** Whether an [int] converts to a list index ([Py_ssize_t], 64 bits). *)
Definition is_index (n : Z) : bool := (- 2 ^ 63 <=? n) && (n <? 2 ^ 63).

(** [l * n] on lists.  The count is first converted to an index
    ([OverflowError] if it does not fit); a count [n <= 0] or an empty [l]
    gives the empty list; otherwise a list of [len(l) * n] items is
    allocated ([MemoryError] if [fits] refuses that size) and filled. *)
Definition py_list_mul {A : Type} (fits : Z -> bool) (l : list A) (n : Z)
    : result (list A) :=
  if is_index n then
    if (n <=? 0) || (Z.of_nat (length l) =? 0) then Return []
    else if fits (Z.of_nat (length l) * n) then Return (repeated l n)
    else Raise MemoryError
  else Raise OverflowError.

(** [a + b] on lists: a new list of [len(a) + len(b)] items. *)
Definition py_list_add {A : Type} (fits : Z -> bool) (a b : list A)
    : result (list A) :=
  if (Z.of_nat (length a) + Z.of_nat (length b) =? 0) then Return []
  else if fits (Z.of_nat (length a) + Z.of_nat (length b)) then Return (a ++ b)
  else Raise MemoryError.

(** [len(l)] *)
Definition len {A : Type} (l : list A) : Z := Z.of_nat (length l).

(** [c.to_bytes(2, byteorder='little')] *)
Definition to_bytes_2_little (c : Z) : result bytes :=
  if (0 <=? c) && (c <? 65536)
  then Return [c mod 256; c / 256]
  else Raise OverflowError.

(** ** The instance *)

Record openlst_mod : Type := Build_openlst_mod {
  preamble_bytes : Z;
  sync_byte1 : Z;
  sync_byte0 : Z;
  sync_words : Z;
  flags : Z;
  fec : bool;
  whitening : bool;
  _buff : list Z;
  _out_buffer : list bytes
}.

(** [self._out_buffer = q] *)
Definition set_out_buffer (self : openlst_mod) (q : list bytes) : openlst_mod :=
  {| preamble_bytes := preamble_bytes self;
     sync_byte1 := sync_byte1 self;
     sync_byte0 := sync_byte0 self;
     sync_words := sync_words self;
     flags := flags self;
     fec := fec self;
     whitening := whitening self;
     _buff := _buff self;
     _out_buffer := q |}.

(** [__init__]: the arguments are stored as given; both buffers start
    empty.  Nothing is checked. *)
Definition __init__ (preamble_bytes sync_byte1 sync_byte0 sync_words flags : Z)
    (fec whitening : bool) : result openlst_mod :=
  Return {| preamble_bytes := preamble_bytes;
            sync_byte1 := sync_byte1;
            sync_byte0 := sync_byte0;
            sync_words := sync_words;
            flags := flags;
            fec := fec;
            whitening := whitening;
            _buff := [];
            _out_buffer := [] |}.

(** The defaults of [__init__]'s keyword arguments. *)
Definition default_instance : result openlst_mod :=
  __init__ 4 0xd3 0x91 2 0xC0 true true.

(** ** Collaborators *)

(** Effects of [work] that the scheduler observes. *)
Inductive event : Type :=
| Printed (data : list bytes)
| Consume (port : Z) (n : Z).

Class Collaborators : Type := {
  (** [crc.crc16] *)
  crc16 : bytes -> Z;
  (** [whitening.whiten] *)
  whiten : bytes -> bytes;
  (** [fec.encode_fec] *)
  encode_fec : bytes -> bytes;
  (** NumPy's [a[:n] = data] on the uint8 array [a], where [data] is a
      list of queue entries; whether it raises is NumPy's business. *)
  ndarray_setslice : list Z -> nat -> list bytes -> result (list Z);
  (** Whether the interpreter can allocate a list of that many items. *)
  list_fits : Z -> bool
}.

(** What NumPy does with [a[:n] = data] when [a] is a one-dimensional
    uint8 array and [data] a list of [bytearray] objects: an array element
    cannot hold a sequence, so any non-empty [data] raises [ValueError];
    the empty list is stored (changing nothing) when the slice is empty
    and cannot be broadcast into a non-empty slice. *)
Definition numpy_setslice (a : list Z) (n : nat) (data : list bytes)
    : result (list Z) :=
  match data with
  | [] => if (Nat.min n (length a) =? 0)%nat then Return a else Raise ValueError
  | _ :: _ => Raise ValueError
  end.

(** The collaborators store the way NumPy does. *)
Definition stores_like_numpy (E : Collaborators) : Prop :=
  forall a n data, ndarray_setslice a n data = numpy_setslice a n data.

(** ** [handle_msg], in the order of its statements *)

(** Lines 78-84: length byte, flags, data (with seqnum), then the HWID. *)
Definition segment_body (self : openlst_mod) (raw : bytes) : result bytes :=
  content <- py_bytes ([len raw + 3] ++ [flags self]) ;;
  let content := content ++ skipn 2 raw in
  let content := content ++ firstn 2 raw in
  Return content.

Section WithCollaborators.
Context {E : Collaborators}.

(** Lines 74-75: the list handed to [bytearray]. *)
Definition preamble_items (self : openlst_mod) : result (list Z) :=
  a <- py_list_mul list_fits [0xaa] (preamble_bytes self) ;;
  b <- py_list_mul list_fits [sync_byte1 self; sync_byte0 self] (sync_words self) ;;
  py_list_add list_fits a b.

(** Lines 73-75: preamble and sync words. *)
Definition preamble_of (self : openlst_mod) : result bytes :=
  items <- preamble_items self ;;
  py_bytes items.

(** Lines 78-88: the data segment with its checksum. *)
Definition data_segment (self : openlst_mod) (raw : bytes) : result bytes :=
  content <- segment_body self raw ;;
  let checksum := crc16 content in
  tail <- to_bytes_2_little checksum ;;
  Return (content ++ tail).

(** Lines 91-94: whitening, then FEC. *)
Definition transform (self : openlst_mod) (content : bytes) : bytes :=
  let content := if whitening self then whiten content else content in
  let content := if fec self then encode_fec content else content in
  content.

(** Lines 70-94: everything [handle_msg] computes before it queues. *)
Definition encode_frame (self : openlst_mod) (msg : list Z) : result bytes :=
  raw <- py_bytes msg ;;
  preamble <- preamble_of self ;;
  content <- data_segment self raw ;;
  let content := transform self content in
  Return (preamble ++ content).

Definition handle_msg (self : openlst_mod) (msg : list Z) : result openlst_mod :=
  frame <- encode_frame self msg ;;
  Return (set_out_buffer self (_out_buffer self ++ [frame])).

(** ** [work] *)

Record work_outcome : Type := Build_work_outcome {
  instance_after : openlst_mod;
  output_after : list Z;
  events : list event;
  returned : Z
}.

Definition work (self : openlst_mod) (input_items0 output_items0 : list Z)
    : result work_outcome :=
  if 0 <? len (_out_buffer self) then
    let buffer_size := length (_out_buffer self) in
    let output_size := length output_items0 in
    let num_bytes_out := Nat.min buffer_size output_size in
    let data := firstn num_bytes_out (_out_buffer self) in
    let buff := skipn num_bytes_out (_out_buffer self) in
    output' <- ndarray_setslice output_items0 num_bytes_out data ;;
    let self' := set_out_buffer self buff in
    let consumed :=
      if (num_bytes_out <? output_size)%nat
      then [Consume 0 (Z.of_nat output_size - Z.of_nat num_bytes_out)]
      else [] in
    Return {| instance_after := self';
              output_after := output';
              events := Printed data :: consumed;
              returned := Z.of_nat num_bytes_out |}
  else
    Return {| instance_after := self;
              output_after := output_items0;
              events := [Consume 0 (len input_items0)];
              returned := 0 |}.

End WithCollaborators.

(** ** Test doubles for the collaborators

    Small stand-ins used to run the block on concrete inputs.  The
    checksum adds the bytes modulo 2^16, the whitener xors byte [i] with
    the counter [i], the FEC encoder sends every byte twice, the store is
    NumPy's, and lists of up to 2^32 items can be allocated. *)

Fixpoint xor_counter (i : Z) (l : bytes) : bytes :=
  match l with
  | [] => []
  | b :: l' => Z.lxor b (i mod 256) :: xor_counter (i + 1) l'
  end.

Definition doubles : Collaborators := {|
  crc16 := fun l => fold_right Z.add 0 l mod 65536;
  whiten := xor_counter 0;
  encode_fec := flat_map (fun b => [b; b]);
  ndarray_setslice := numpy_setslice;
  list_fits := fun n => n <=? 2 ^ 32
|}.

(** A configuration with neither whitening nor FEC, flags [0xC0]. *)
Definition plain_instance : openlst_mod :=
  {| preamble_bytes := 4; sync_byte1 := 0xd3; sync_byte0 := 0x91;
     sync_words := 2; flags := 0xC0; fec := false; whitening := false;
     _buff := []; _out_buffer := [] |}.

Definition example_raw : bytes := [0x12; 0x34; 0x00; 0x01; 0xAB; 0xCD].

(** The instance [__init__] builds from its default arguments. *)
Definition default_self : openlst_mod :=
  {| preamble_bytes := 4; sync_byte1 := 0xd3; sync_byte0 := 0x91;
     sync_words := 2; flags := 0xC0; fec := true; whitening := true;
     _buff := []; _out_buffer := [] |}.

(** A configuration without preamble, sync words, whitening or FEC. *)
Definition bare_instance : openlst_mod :=
  {| preamble_bytes := 0; sync_byte1 := 0xd3; sync_byte0 := 0x91;
     sync_words := 0; flags := 0xC0; fec := false; whitening := false;
     _buff := []; _out_buffer := [] |}.

(** The frame [handle_msg] queues for [example_raw] on [bare_instance]. *)
Definition ten_byte_frame : bytes :=
  [0x09; 0xC0; 0x00; 0x01; 0xAB; 0xCD; 0x12; 0x34; 0x88; 0x02].

(** ** Closed forms of what [handle_msg] builds *)

(** Bytes of the data segment before the checksum. *)
Definition body_of (self : openlst_mod) (raw : bytes) : bytes :=
  [len raw + 3; flags self] ++ skipn 2 raw ++ firstn 2 raw.

(** Preamble and sync words, as plain bytes. *)
Definition prefix_of (self : openlst_mod) : bytes :=
  repeat 0xAA (Z.to_nat (preamble_bytes self)) ++
  concat (repeat [sync_byte1 self; sync_byte0 self] (Z.to_nat (sync_words self))).

(** ** Sequences of calls *)

(** What [handle_msg] needs of the message and the configuration for its
    [bytes]/[bytearray] constructors not to raise (the lists of lines
    74-75 being built). *)
Definition constructors_accept (self : openlst_mod) (msg : list Z) : bool :=
  forallb is_byte msg &&
  ((sync_words self <=? 0) || (is_byte (sync_byte1 self) && is_byte (sync_byte0 self))) &&
  is_byte (len msg + 3) &&
  is_byte (flags self).

(** Entries a call of [work] passed to [print] (and to the store). *)
Definition printed (evs : list event) : list bytes :=
  flat_map (fun e => match e with Printed d => d | Consume _ _ => [] end) evs.

(** Number of input items a call of [work] told the scheduler to drop. *)
Definition consumed (evs : list event) : Z :=
  fold_right (fun e acc => match e with Printed _ => acc | Consume _ n => n + acc end)
             0 evs.

Section Drivers.
Context {E : Collaborators}.

(** The frame [handle_msg] queues when nothing raises. *)
Definition frame_of (self : openlst_mod) (msg : list Z) : bytes :=
  prefix_of self ++
  transform self
    (body_of self msg ++
     [crc16 (body_of self msg) mod 256; crc16 (body_of self msg) / 256]).

(** [handle_msg] called on each message in turn; the first exception ends
    the run. *)
Fixpoint handle_msgs (self : openlst_mod) (msgs : list (list Z)) : result openlst_mod :=
  match msgs with
  | [] => Return self
  | m :: ms => self' <- handle_msg self m ;; handle_msgs self' ms
  end.

(** One call of either entry point that returns. *)
Inductive step : openlst_mod -> openlst_mod -> Prop :=
| step_handle_msg (self self' : openlst_mod) (msg : list Z) :
    handle_msg self msg = Return self' -> step self self'
| step_work (self : openlst_mod) (input_items0 output_items0 : list Z)
            (r : work_outcome) :
    work self input_items0 output_items0 = Return r ->
    step self (instance_after r).

(** Instances a freshly built one can evolve into. *)
Inductive reachable (self0 : openlst_mod) : openlst_mod -> Prop :=
| reachable_init : reachable self0 self0
| reachable_step (self self' : openlst_mod) :
    reachable self0 self -> step self self' -> reachable self0 self'.

End Drivers.

(** * Properties *)

(** ** Built-ins *)

Lemma bind_Return_inv {A B : Type} (m : result A) (k : A -> result B) (b : B) :
  bind m k = Return b -> exists a, m = Return a /\ k a = Return b.
Proof.
  destruct m as [e | a]; simpl; intros H.
  - discriminate H.
  - exists a. split; [reflexivity | exact H].
Qed.

Lemma py_bytes_inv (l r : list Z) :
  py_bytes l = Return r -> r = l /\ forallb is_byte l = true.
Proof.
  unfold py_bytes. destruct (forallb is_byte l) eqn:F; intros H.
  - inversion H. split; reflexivity.
  - discriminate H.
Qed.

Lemma py_bytes_ok (l : list Z) :
  forallb is_byte l = true -> py_bytes l = Return l.
Proof. unfold py_bytes. intros ->. reflexivity. Qed.

Lemma is_byte_range (b : Z) : is_byte b = true <-> 0 <= b < 256.
Proof. unfold is_byte. rewrite andb_true_iff, Z.leb_le, Z.ltb_lt. tauto. Qed.

Lemma to_bytes_2_little_inv (c : Z) (r : bytes) :
  to_bytes_2_little c = Return r ->
  0 <= c < 65536 /\ r = [c mod 256; c / 256].
Proof.
  unfold to_bytes_2_little.
  destruct ((0 <=? c) && (c <? 65536)) eqn:R; intros H; [| discriminate H].
  apply andb_true_iff in R. rewrite Z.leb_le, Z.ltb_lt in R.
  inversion H. split; [exact R | reflexivity].
Qed.

Lemma to_bytes_2_little_ok (c : Z) :
  0 <= c < 65536 -> to_bytes_2_little c = Return [c mod 256; c / 256].
Proof.
  intros [Hl Hu]. unfold to_bytes_2_little.
  apply Z.leb_le in Hl. apply Z.ltb_lt in Hu. rewrite Hl, Hu. reflexivity.
Qed.

Lemma repeated_length {A : Type} (l : list A) (n : Z) :
  length (repeated l n) = (Z.to_nat n * length l)%nat.
Proof.
  unfold repeated. induction (Z.to_nat n) as [| k IH]; simpl.
  - reflexivity.
  - rewrite length_app, IH. reflexivity.
Qed.

Lemma repeated_singleton {A : Type} (a : A) (n : Z) :
  repeated [a] n = repeat a (Z.to_nat n).
Proof.
  unfold repeated. induction (Z.to_nat n) as [| k IH]; simpl.
  - reflexivity.
  - rewrite IH. reflexivity.
Qed.

Lemma repeated_nonpos {A : Type} (l : list A) (n : Z) :
  n <= 0 -> repeated l n = [].
Proof.
  intros H. unfold repeated.
  replace (Z.to_nat n) with 0%nat by lia. reflexivity.
Qed.

Lemma repeated_nil {A : Type} (n : Z) : repeated (@nil A) n = [].
Proof.
  unfold repeated. induction (Z.to_nat n) as [| k IH]; simpl; auto.
Qed.

Lemma is_index_range (n : Z) : is_index n = true <-> - 2 ^ 63 <= n < 2 ^ 63.
Proof. unfold is_index. rewrite andb_true_iff, Z.leb_le, Z.ltb_lt. tauto. Qed.

(** Whenever a list repetition returns, it returns the copies. *)
Lemma py_list_mul_inv {A : Type} (fits : Z -> bool) (l r : list A) (n : Z) :
  py_list_mul fits l n = Return r ->
  r = repeated l n /\ - 2 ^ 63 <= n < 2 ^ 63.
Proof.
  unfold py_list_mul. destruct (is_index n) eqn:Hi; [| discriminate].
  apply is_index_range in Hi. intros H. split; [| exact Hi].
  destruct ((n <=? 0) || (Z.of_nat (length l) =? 0)) eqn:Hz.
  - inversion H. apply orb_true_iff in Hz. destruct Hz as [Hz | Hz].
    + apply Z.leb_le in Hz. symmetry. apply repeated_nonpos. exact Hz.
    + apply Z.eqb_eq in Hz. destruct l; [| simpl in Hz; lia].
      symmetry. apply repeated_nil.
  - destruct (fits (Z.of_nat (length l) * n)); inversion H. reflexivity.
Qed.

Lemma py_list_mul_out_of_range {A : Type} (fits : Z -> bool) (l : list A) (n : Z) :
  n < - 2 ^ 63 \/ 2 ^ 63 <= n ->
  py_list_mul fits l n = Raise OverflowError.
Proof.
  intros H. unfold py_list_mul.
  destruct (is_index n) eqn:Hi; [| reflexivity].
  apply is_index_range in Hi. lia.
Qed.

Lemma py_list_mul_nonpos {A : Type} (fits : Z -> bool) (l : list A) (n : Z) :
  - 2 ^ 63 <= n <= 0 -> py_list_mul fits l n = Return [].
Proof.
  intros H. unfold py_list_mul.
  assert (Hi : is_index n = true) by (apply is_index_range; lia).
  rewrite Hi. replace (n <=? 0) with true by (symmetry; apply Z.leb_le; lia).
  reflexivity.
Qed.

Lemma py_list_add_inv {A : Type} (fits : Z -> bool) (a b r : list A) :
  py_list_add fits a b = Return r -> r = a ++ b.
Proof.
  unfold py_list_add.
  destruct (Z.of_nat (length a) + Z.of_nat (length b) =? 0) eqn:Hz.
  - apply Z.eqb_eq in Hz. intros H. inversion H.
    destruct a; [| cbn [length] in Hz; lia]. destruct b; [| cbn [length] in Hz; lia].
    reflexivity.
  - destruct (fits (Z.of_nat (length a) + Z.of_nat (length b)));
      intros H; inversion H. reflexivity.
Qed.

(** ** The shape of what [handle_msg] builds *)

Lemma segment_body_inv (self : openlst_mod) (raw body : bytes) :
  segment_body self raw = Return body ->
  body = body_of self raw /\
  is_byte (len raw + 3) = true /\ is_byte (flags self) = true.
Proof.
  unfold segment_body. intros H.
  apply bind_Return_inv in H. destruct H as (hd & Hhd & H).
  apply py_bytes_inv in Hhd. destruct Hhd as [-> F].
  simpl in F. rewrite andb_true_r in F. apply andb_true_iff in F.
  inversion H. split; [| exact F].
  reflexivity.
Qed.

Lemma segment_body_ok (self : openlst_mod) (raw : bytes) :
  len raw + 3 < 256 -> 0 <= flags self < 256 ->
  segment_body self raw = Return (body_of self raw).
Proof.
  intros HL HF. unfold segment_body.
  rewrite py_bytes_ok.
  - reflexivity.
  - simpl. rewrite andb_true_r. apply andb_true_iff. split.
    + apply is_byte_range. unfold len in *. lia.
    + apply is_byte_range. exact HF.
Qed.

Lemma body_of_length (self : openlst_mod) (raw : bytes) :
  length (body_of self raw) = (length raw + 2)%nat.
Proof.
  unfold body_of. cbn [app length].
  rewrite length_app, length_skipn, length_firstn. lia.
Qed.

Section Framing.
Context {E : Collaborators}.

Lemma data_segment_inv (self : openlst_mod) (raw seg : bytes) :
  data_segment self raw = Return seg ->
  segment_body self raw = Return (body_of self raw) /\
  0 <= crc16 (body_of self raw) < 65536 /\
  seg = body_of self raw ++
        [crc16 (body_of self raw) mod 256; crc16 (body_of self raw) / 256].
Proof.
  unfold data_segment. intros H.
  apply bind_Return_inv in H. destruct H as (body & Hb & H).
  apply bind_Return_inv in H. destruct H as (tail & Ht & H).
  destruct (segment_body_inv _ _ _ Hb) as (-> & _ & _).
  apply to_bytes_2_little_inv in Ht. destruct Ht as [R ->].
  inversion H. auto.
Qed.

Lemma data_segment_ok (self : openlst_mod) (raw : bytes) :
  len raw + 3 < 256 -> 0 <= flags self < 256 ->
  0 <= crc16 (body_of self raw) < 65536 ->
  data_segment self raw =
  Return (body_of self raw ++
          [crc16 (body_of self raw) mod 256; crc16 (body_of self raw) / 256]).
Proof.
  intros HL HF HC. unfold data_segment.
  rewrite segment_body_ok by assumption. simpl.
  rewrite to_bytes_2_little_ok by assumption. reflexivity.
Qed.

Lemma encode_frame_inv (self : openlst_mod) (msg : list Z) (frame : bytes) :
  encode_frame self msg = Return frame ->
  exists preamble seg,
    py_bytes msg = Return msg /\
    preamble_of self = Return preamble /\
    data_segment self msg = Return seg /\
    frame = preamble ++ transform self seg.
Proof.
  unfold encode_frame. intros H.
  apply bind_Return_inv in H. destruct H as (raw & Hraw & H).
  apply bind_Return_inv in H. destruct H as (preamble & Hp & H).
  apply bind_Return_inv in H. destruct H as (seg & Hs & H).
  pose proof (py_bytes_inv _ _ Hraw) as [-> _].
  exists preamble, seg. inversion H. auto.
Qed.

Lemma handle_msg_inv (self self' : openlst_mod) (msg : list Z) :
  handle_msg self msg = Return self' ->
  exists frame,
    encode_frame self msg = Return frame /\
    self' = set_out_buffer self (_out_buffer self ++ [frame]).
Proof.
  unfold handle_msg. intros H.
  apply bind_Return_inv in H. destruct H as (frame & Hf & H).
  exists frame. inversion H. auto.
Qed.

End Framing.

(** ** Slices of a concatenation *)

Lemma firstn_exact {A : Type} (a b : list A) (n : nat) :
  length a = n -> firstn n (a ++ b) = a.
Proof.
  revert n. induction a as [| x a IH]; intros n H; simpl in H; subst n; simpl.
  - reflexivity.
  - f_equal. apply IH. reflexivity.
Qed.

Lemma skipn_exact {A : Type} (a b : list A) (n : nat) :
  length a = n -> skipn n (a ++ b) = b.
Proof.
  revert n. induction a as [| x a IH]; intros n H; simpl in H; subst n; simpl.
  - reflexivity.
  - apply IH. reflexivity.
Qed.

Lemma le_bytes_of_u16 (c : Z) :
  0 <= c < 65536 ->
  c mod 256 + 256 * (c / 256) = c /\
  0 <= c mod 256 < 256 /\ 0 <= c / 256 < 256.
Proof.
  intros R. pose proof (Z.div_mod c 256 ltac:(lia)) as D.
  pose proof (Z.mod_pos_bound c 256 ltac:(lia)) as M.
  repeat split; lia.
Qed.

(** ** Data segment *)

(** C1, as the spec words it, does not hold: on the spec's own example the
    length byte is [0x09], not [0x07 = 3 + (len(raw) - 2)]. *)
Lemma length_field_is_not_payload_plus_three :
  segment_body plain_instance example_raw =
    Return [0x09; 0xC0; 0x00; 0x01; 0xAB; 0xCD; 0x12; 0x34] /\
  segment_body plain_instance example_raw <>
    Return [0x07; 0xC0; 0x00; 0x01; 0xAB; 0xCD; 0x12; 0x34] /\
  (exists seg, data_segment (E := doubles) plain_instance example_raw = Return seg /\
               nth 0 seg 0 <> 3 + (len example_raw - 2)).
Proof.
  split; [reflexivity |]. split; [discriminate |].
  eexists. split; [reflexivity |]. discriminate.
Qed.

(** C1 (amended): in every data segment [handle_msg] builds, the length
    byte equals [len(raw) + 3] (flags, the whole raw message and the two
    checksum bytes) and the segment is [Length + 1] bytes long.  A
    segment is built for every raw message of at most 252 bytes when the
    flags fit a byte and the checksum fits 16 bits.  For
    [raw = 12 34 00 01 AB CD] and flags [0xC0] the bytes before the
    checksum are [09 C0 00 01 AB CD 12 34]. *)
Theorem length_field_is_raw_plus_three :
  (forall (E : Collaborators) (self : openlst_mod) (raw seg : bytes),
      data_segment self raw = Return seg ->
      nth 0 seg 0 = len raw + 3 /\ len seg = nth 0 seg 0 + 1) /\
  (forall (E : Collaborators) (self : openlst_mod) (raw : bytes),
      len raw <= 252 ->
      0 <= flags self < 256 ->
      (forall l, 0 <= crc16 l < 65536) ->
      exists seg, data_segment self raw = Return seg) /\
  segment_body plain_instance example_raw =
    Return [0x09; 0xC0; 0x00; 0x01; 0xAB; 0xCD; 0x12; 0x34].
Proof.
  split; [| split; [| reflexivity]].
  - intros E self raw seg H.
    apply data_segment_inv in H. destruct H as (_ & _ & ->).
    split; [reflexivity |].
    unfold len. rewrite length_app, body_of_length. cbn [nth body_of app length].
    unfold len. lia.
  - intros E self raw HL HF HC.
    eexists. apply data_segment_ok; [lia | exact HF | apply HC].
Qed.

Lemma length_field_is_raw_plus_three_witness :
  (nth 0 [0x09; 0xC0; 0x00; 0x01; 0xAB; 0xCD; 0x12; 0x34; 0x88; 0x02] 0
     = len example_raw + 3 /\
   len [0x09; 0xC0; 0x00; 0x01; 0xAB; 0xCD; 0x12; 0x34; 0x88; 0x02]
     = nth 0 [0x09; 0xC0; 0x00; 0x01; 0xAB; 0xCD; 0x12; 0x34; 0x88; 0x02] 0 + 1) /\
  (exists seg, data_segment (E := doubles) plain_instance example_raw = Return seg).
Proof.
  split.
  - apply (proj1 length_field_is_raw_plus_three doubles plain_instance example_raw).
    reflexivity.
  - apply (proj1 (proj2 length_field_is_raw_plus_three) doubles plain_instance example_raw).
    + unfold len. simpl. lia.
    + simpl. lia.
    + intros l. simpl. apply Z.mod_pos_bound. lia.
Defined.

(** C4: the last two bytes of every data segment are [crc16] of all the
    bytes before them (length byte through HWID), low byte first. *)
Theorem checksum_over_preceding_bytes_little_endian :
  forall (E : Collaborators) (self : openlst_mod) (raw seg : bytes),
    data_segment self raw = Return seg ->
    let covered := firstn (length seg - 2) seg in
    let c := crc16 covered in
    covered = [len raw + 3; flags self] ++ skipn 2 raw ++ firstn 2 raw /\
    skipn (length seg - 2) seg = [c mod 256; c / 256] /\
    c mod 256 + 256 * (c / 256) = c /\
    0 <= c mod 256 < 256 /\ 0 <= c / 256 < 256.
Proof.
  intros E self raw seg H covered c.
  apply data_segment_inv in H. destruct H as (_ & R & Hseg).
  assert (Hn : (length seg - 2)%nat = length (body_of self raw)).
  { rewrite Hseg, length_app. simpl. lia. }
  assert (Hc : covered = body_of self raw).
  { unfold covered. rewrite Hn. rewrite Hseg at 1. apply firstn_exact. reflexivity. }
  unfold c. rewrite Hc. split; [reflexivity |]. split.
  - rewrite Hn. rewrite Hseg at 1. apply skipn_exact. reflexivity.
  - apply le_bytes_of_u16. exact R.
Qed.

Lemma checksum_over_preceding_bytes_little_endian_witness :
  skipn 8 [0x09; 0xC0; 0x00; 0x01; 0xAB; 0xCD; 0x12; 0x34; 0x88; 0x02]
    = [0x288 mod 256; 0x288 / 256].
Proof.
  exact (proj1 (proj2
    (checksum_over_preceding_bytes_little_endian
       doubles plain_instance example_raw
       [0x09; 0xC0; 0x00; 0x01; 0xAB; 0xCD; 0x12; 0x34; 0x88; 0x02]
       eq_refl))).
Defined.

(** C6: for a raw message of at least two bytes, its first two bytes (the
    HWID) sit directly before the two checksum bytes, the segment starts
    with the length and flags bytes, and the rest of the raw message
    follows the flags byte unchanged. *)
Theorem hwid_relocated_before_checksum :
  forall (E : Collaborators) (self : openlst_mod) (raw seg : bytes),
    (2 <= length raw)%nat ->
    data_segment self raw = Return seg ->
    (exists c0 c1,
        seg = [len raw + 3; flags self] ++ skipn 2 raw ++ firstn 2 raw ++ [c0; c1]) /\
    length seg = (length raw + 4)%nat /\
    firstn 2 (skipn (length seg - 4) seg) = firstn 2 raw /\
    length (skipn (length seg - 2) seg) = 2%nat /\
    firstn 2 seg = [len raw + 3; flags self] /\
    firstn (length raw - 2) (skipn 2 seg) = skipn 2 raw.
Proof.
  intros E self raw seg Hlen H.
  apply data_segment_inv in H. destruct H as (_ & _ & Hseg).
  set (c := crc16 (body_of self raw)) in Hseg.
  assert (Hshape : seg = [len raw + 3; flags self] ++ skipn 2 raw ++
                         firstn 2 raw ++ [c mod 256; c / 256]).
  { rewrite Hseg. unfold body_of. rewrite <- !app_assoc. reflexivity. }
  assert (Hlong : length seg = (length raw + 4)%nat).
  { rewrite Hseg, length_app, body_of_length. simpl. lia. }
  assert (Hhw : length (firstn 2 raw) = 2%nat) by (rewrite length_firstn; lia).
  assert (Hpl : length (skipn 2 raw) = (length raw - 2)%nat) by apply length_skipn.
  split; [exists (c mod 256), (c / 256); exact Hshape |].
  split; [exact Hlong |].
  split.
  { rewrite Hlong. rewrite Hshape.
    rewrite (app_assoc [len raw + 3; flags self]).
    rewrite skipn_exact.
    - apply firstn_exact. exact Hhw.
    - rewrite length_app, Hpl. simpl. lia. }
  split.
  { rewrite length_skipn, Hlong. lia. }
  split.
  { rewrite Hshape. reflexivity. }
  rewrite Hshape. cbn [app skipn].
  apply firstn_exact. exact Hpl.
Qed.

Lemma hwid_relocated_before_checksum_witness :
  firstn 2 (skipn (10 - 4) [0x09; 0xC0; 0x00; 0x01; 0xAB; 0xCD; 0x12; 0x34; 0x88; 0x02])
    = firstn 2 example_raw.
Proof.
  refine (proj1 (proj2 (proj2
    (hwid_relocated_before_checksum
       doubles plain_instance example_raw
       [0x09; 0xC0; 0x00; 0x01; 0xAB; 0xCD; 0x12; 0x34; 0x88; 0x02]
       _ eq_refl)))).
  simpl. lia.
Defined.

(** ** Preamble and transform *)

Lemma prefix_of_length (self : openlst_mod) :
  length (prefix_of self) =
  (Z.to_nat (preamble_bytes self) + 2 * Z.to_nat (sync_words self))%nat.
Proof.
  unfold prefix_of. rewrite length_app, repeat_length.
  change (concat (repeat [sync_byte1 self; sync_byte0 self]
                         (Z.to_nat (sync_words self))))
    with (repeated [sync_byte1 self; sync_byte0 self] (sync_words self)).
  rewrite repeated_length. simpl. lia.
Qed.

Lemma forallb_repeated {A : Type} (f : A -> bool) (l : list A) (n : Z) :
  (0 < n -> forallb f l = true) -> forallb f (repeated l n) = true.
Proof.
  intros H. destruct (Z_lt_le_dec 0 n) as [Hn | Hn].
  - specialize (H Hn). unfold repeated.
    induction (Z.to_nat n) as [| k IH]; simpl.
    + reflexivity.
    + rewrite forallb_app, H, IH. reflexivity.
  - rewrite repeated_nonpos by exact Hn. reflexivity.
Qed.

Lemma sync_words_check (s1 s0 sw : Z) :
  forallb is_byte (repeated [s1; s0] sw) =
  (sw <=? 0) || (is_byte s1 && is_byte s0).
Proof.
  destruct (sw <=? 0) eqn:Hs.
  - apply Z.leb_le in Hs. rewrite repeated_nonpos by exact Hs. reflexivity.
  - apply Z.leb_gt in Hs. simpl.
    destruct (is_byte s1 && is_byte s0) eqn:Hb.
    + apply forallb_repeated. intros _. simpl.
      apply andb_true_iff in Hb. destruct Hb as [-> ->]. reflexivity.
    + unfold repeated.
      destruct (Z.to_nat sw) as [| k] eqn:Hk; [lia |].
      simpl. destruct (is_byte s1); simpl in *; [| reflexivity].
      rewrite Hb. reflexivity.
Qed.

Section PreambleFacts.
Context {E : Collaborators}.

(** Whenever the lists of lines 74-75 are built, they hold the copies,
    and both counts fit an index. *)
Lemma preamble_items_inv (self : openlst_mod) (items : list Z) :
  preamble_items self = Return items ->
  items = repeated [0xaa] (preamble_bytes self) ++
          repeated [sync_byte1 self; sync_byte0 self] (sync_words self) /\
  - 2 ^ 63 <= preamble_bytes self < 2 ^ 63 /\
  - 2 ^ 63 <= sync_words self < 2 ^ 63.
Proof.
  unfold preamble_items. intros H.
  apply bind_Return_inv in H. destruct H as (a & Ha & H).
  apply bind_Return_inv in H. destruct H as (b & Hb & H).
  apply py_list_mul_inv in Ha. destruct Ha as [-> Ra].
  apply py_list_mul_inv in Hb. destruct Hb as [-> Rb].
  apply py_list_add_inv in H. auto.
Qed.

Lemma preamble_of_outcome (self : openlst_mod) (items : list Z) :
  preamble_items self = Return items ->
  preamble_of self =
  if (sync_words self <=? 0) || (is_byte (sync_byte1 self) && is_byte (sync_byte0 self))
  then Return (prefix_of self)
  else Raise ValueError.
Proof.
  intros H. unfold preamble_of. rewrite H. cbn [bind].
  apply preamble_items_inv in H. destruct H as (-> & _ & _).
  unfold py_bytes.
  rewrite forallb_app, sync_words_check.
  rewrite (forallb_repeated is_byte [0xaa]) by (intros _; reflexivity).
  cbn [andb]. rewrite repeated_singleton. reflexivity.
Qed.

Lemma preamble_of_inv (self : openlst_mod) (p : bytes) :
  preamble_of self = Return p -> p = prefix_of self.
Proof.
  unfold preamble_of. intros H.
  apply bind_Return_inv in H. destruct H as (items & Hi & H).
  apply py_bytes_inv in H. destruct H as [-> _].
  apply preamble_items_inv in Hi. destruct Hi as (-> & _ & _).
  rewrite repeated_singleton. reflexivity.
Qed.

(** The preamble is built only from counts that fit an index and, when
    sync words are asked for, sync bytes that fit a byte. *)
Lemma preamble_of_returns_only_if (self : openlst_mod) (p : bytes) :
  preamble_of self = Return p ->
  - 2 ^ 63 <= preamble_bytes self < 2 ^ 63 /\
  - 2 ^ 63 <= sync_words self < 2 ^ 63 /\
  (0 < sync_words self ->
   0 <= sync_byte1 self < 256 /\ 0 <= sync_byte0 self < 256).
Proof.
  intros H. pose proof H as H'. unfold preamble_of in H'.
  apply bind_Return_inv in H'. destruct H' as (items & Hi & _).
  rewrite (preamble_of_outcome _ _ Hi) in H.
  apply preamble_items_inv in Hi. destruct Hi as (_ & Rp & Rs).
  split; [exact Rp |]. split; [exact Rs |].
  intros Hs.
  destruct ((sync_words self <=? 0) ||
            (is_byte (sync_byte1 self) && is_byte (sync_byte0 self))) eqn:Hc;
    [| discriminate H].
  apply orb_true_iff in Hc. destruct Hc as [Hc | Hc].
  - apply Z.leb_le in Hc. lia.
  - apply andb_true_iff in Hc. rewrite !is_byte_range in Hc. exact Hc.
Qed.

(** Counts in [-2^63, 0] need no allocation: the preamble is empty. *)
Lemma preamble_of_nonpos (self : openlst_mod) :
  - 2 ^ 63 <= preamble_bytes self <= 0 ->
  - 2 ^ 63 <= sync_words self <= 0 ->
  preamble_of self = Return [].
Proof.
  intros Hp Hs. unfold preamble_of, preamble_items.
  rewrite !py_list_mul_nonpos by assumption. reflexivity.
Qed.

End PreambleFacts.

Lemma default_instance_eq : default_instance = Return default_self.
Proof. reflexivity. Qed.

(** C5: the frame [handle_msg] queues carries [encode_fec (whiten seg)]
    when both options are on, [whiten seg] or [encode_fec seg] when only
    one is, and [seg] itself when neither is. *)
Theorem whitening_is_applied_before_fec :
  forall (E : Collaborators) (self self' : openlst_mod) (msg : list Z),
    handle_msg self msg = Return self' ->
    exists preamble seg,
      preamble_of self = Return preamble /\
      data_segment self msg = Return seg /\
      _out_buffer self' = _out_buffer self ++ [preamble ++ transform self seg] /\
      transform self seg =
        match whitening self, fec self with
        | true, true => encode_fec (whiten seg)
        | true, false => whiten seg
        | false, true => encode_fec seg
        | false, false => seg
        end.
Proof.
  intros E self self' msg H.
  apply handle_msg_inv in H. destruct H as (frame & Hf & ->).
  apply encode_frame_inv in Hf. destruct Hf as (preamble & seg & _ & Hp & Hs & ->).
  exists preamble, seg. repeat split; try assumption.
  unfold transform. destruct (whitening self), (fec self); reflexivity.
Qed.

Lemma whitening_is_applied_before_fec_witness :
  exists preamble seg,
    preamble_of (E := doubles) default_self = Return preamble /\
    data_segment (E := doubles) default_self example_raw = Return seg /\
    _out_buffer (set_out_buffer default_self
                   [[0xAA; 0xAA; 0xAA; 0xAA; 0xd3; 0x91; 0xd3; 0x91;
                     9; 9; 193; 193; 2; 2; 2; 2; 175; 175;
                     200; 200; 20; 20; 51; 51; 128; 128; 11; 11]])
      = _out_buffer default_self ++
        [preamble ++ transform (E := doubles) default_self seg] /\
    transform (E := doubles) default_self seg =
      encode_fec (Collaborators := doubles) (whiten (Collaborators := doubles) seg).
Proof.
  exact (whitening_is_applied_before_fec doubles default_self _ example_raw eq_refl).
Defined.

(** With the test doubles the two orders give different bytes, so the
    order fixed by [transform] is observable. *)
Example other_order_differs :
  transform (E := doubles) default_self [1; 2] = [1; 1; 3; 3] /\
  whiten (Collaborators := doubles) (encode_fec (Collaborators := doubles) [1; 2])
    = [1; 0; 0; 1].
Proof. split; reflexivity. Qed.

(** C7: every queued frame starts with [preamble_bytes] copies of [0xAA]
    and then [sync_words] copies of the pair [sync_byte1, sync_byte0]; the
    rest of the frame is the transformed data segment, so whitening and
    FEC never touch the prefix, whatever the two options are. *)
Theorem preamble_and_sync_words_are_plain :
  forall (E : Collaborators) (self self' : openlst_mod) (msg : list Z),
    handle_msg self msg = Return self' ->
    let n := (Z.to_nat (preamble_bytes self) + 2 * Z.to_nat (sync_words self))%nat in
    exists frame seg,
      _out_buffer self' = _out_buffer self ++ [frame] /\
      data_segment self msg = Return seg /\
      firstn n frame =
        repeat 0xAA (Z.to_nat (preamble_bytes self)) ++
        concat (repeat [sync_byte1 self; sync_byte0 self]
                       (Z.to_nat (sync_words self))) /\
      skipn n frame = transform self seg /\
      (0 <= preamble_bytes self -> 0 <= sync_words self ->
       n = Z.to_nat (preamble_bytes self + 2 * sync_words self)).
Proof.
  intros E self self' msg H n.
  apply handle_msg_inv in H. destruct H as (frame & Hf & ->).
  apply encode_frame_inv in Hf. destruct Hf as (preamble & seg & _ & Hp & Hs & ->).
  apply preamble_of_inv in Hp. subst preamble.
  exists (prefix_of self ++ transform self seg), seg.
  split; [reflexivity |]. split; [exact Hs |].
  split; [apply firstn_exact, prefix_of_length |].
  split; [apply skipn_exact, prefix_of_length |].
  intros Hp Hw. unfold n. lia.
Qed.

Lemma preamble_and_sync_words_are_plain_witness :
  exists frame seg,
    _out_buffer (set_out_buffer default_self
                   [[0xAA; 0xAA; 0xAA; 0xAA; 0xd3; 0x91; 0xd3; 0x91;
                     9; 9; 193; 193; 2; 2; 2; 2; 175; 175;
                     200; 200; 20; 20; 51; 51; 128; 128; 11; 11]])
      = _out_buffer default_self ++ [frame] /\
    data_segment (E := doubles) default_self example_raw = Return seg /\
    firstn 8 frame = [0xAA; 0xAA; 0xAA; 0xAA; 0xd3; 0x91; 0xd3; 0x91] /\
    skipn 8 frame = transform (E := doubles) default_self seg /\
    (0 <= 4 -> 0 <= 2 -> 8%nat = Z.to_nat (4 + 2 * 2)).
Proof.
  exact (preamble_and_sync_words_are_plain doubles default_self _ example_raw eq_refl).
Defined.

(** ** Short packets and unchecked configurations *)

Section Acceptance.
Context {E : Collaborators}.

(** When [handle_msg] returns normally. *)
Lemma handle_msg_ok (self : openlst_mod) (msg : list Z) (preamble : bytes) :
  forallb is_byte msg = true ->
  preamble_of self = Return preamble ->
  len msg + 3 < 256 ->
  0 <= flags self < 256 ->
  0 <= crc16 (body_of self msg) < 65536 ->
  handle_msg self msg =
  Return (set_out_buffer self
            (_out_buffer self ++
             [prefix_of self ++
              transform self
                (body_of self msg ++
                 [crc16 (body_of self msg) mod 256;
                  crc16 (body_of self msg) / 256])])).
Proof.
  intros Hm HP HL HF HC. unfold handle_msg, encode_frame.
  rewrite py_bytes_ok by exact Hm. cbn [bind].
  rewrite HP. cbn [bind]. apply preamble_of_inv in HP. subst preamble.
  rewrite data_segment_ok by assumption. reflexivity.
Qed.

(** The frame built for a message depends on the configuration only, not
    on what is queued. *)
Lemma encode_frame_ignores_queue (self : openlst_mod) (q : list bytes) (msg : list Z) :
  encode_frame (set_out_buffer self q) msg = encode_frame self msg.
Proof. reflexivity. Qed.

End Acceptance.

(** C3, as the spec words it, does not hold: a one-byte message is framed
    and queued. *)
Lemma one_byte_message_is_queued :
  handle_msg (E := doubles) plain_instance [0x12] =
  Return (set_out_buffer plain_instance
            [[0xAA; 0xAA; 0xAA; 0xAA; 0xd3; 0x91; 0xd3; 0x91;
              0x04; 0xC0; 0x12; 0xD6; 0x00]]).
Proof. reflexivity. Qed.

(** C3 (amended): [handle_msg] has no length check.  A message of fewer
    than two bytes is framed like any other whenever the preamble of
    lines 73-75 is built, the flags fit a byte and the checksum fits 16
    bits: the segment is [len+3, flags] followed by the message and the
    checksum, and the frame goes to the tail of the queue, the earlier
    entries staying as they were.  What is built for a later message does
    not depend on the queue. *)
Theorem short_message_is_framed_and_queued :
  forall (E : Collaborators) (self : openlst_mod) (msg : list Z) (preamble : bytes),
    (length msg < 2)%nat ->
    forallb is_byte msg = true ->
    preamble_of self = Return preamble ->
    0 <= flags self < 256 ->
    (forall l, 0 <= crc16 l < 65536) ->
    exists seg self',
      data_segment self msg = Return seg /\
      seg = [len msg + 3; flags self] ++ msg ++
            [crc16 ([len msg + 3; flags self] ++ msg) mod 256;
             crc16 ([len msg + 3; flags self] ++ msg) / 256] /\
      handle_msg self msg = Return self' /\
      _out_buffer self' =
        _out_buffer self ++ [preamble ++ transform self seg] /\
      (forall msg', encode_frame self' msg' = encode_frame self msg').
Proof.
  intros E self msg preamble Hshort Hm HP HF HC.
  assert (Hbody : body_of self msg = [len msg + 3; flags self] ++ msg).
  { unfold body_of. f_equal.
    rewrite skipn_all2 by lia. rewrite firstn_all2 by lia. reflexivity. }
  assert (HL : len msg + 3 < 256) by (unfold len; lia).
  eexists. eexists.
  split; [apply data_segment_ok; auto |].
  split; [rewrite Hbody, <- app_assoc; reflexivity |].
  split; [apply (handle_msg_ok self msg preamble); auto |].
  split; [rewrite (preamble_of_inv _ _ HP); reflexivity |].
  intros msg'. apply encode_frame_ignores_queue.
Qed.

Lemma short_message_is_framed_and_queued_witness :
  exists seg self',
    data_segment (E := doubles) plain_instance [0x12] = Return seg /\
    seg = [len [0x12] + 3; 0xC0] ++ [0x12] ++
          [crc16 (Collaborators := doubles) ([len [0x12] + 3; 0xC0] ++ [0x12]) mod 256;
           crc16 (Collaborators := doubles) ([len [0x12] + 3; 0xC0] ++ [0x12]) / 256] /\
    handle_msg (E := doubles) plain_instance [0x12] = Return self' /\
    _out_buffer self' =
      [] ++ [[0xAA; 0xAA; 0xAA; 0xAA; 0xd3; 0x91; 0xd3; 0x91]
             ++ transform (E := doubles) plain_instance seg] /\
    (forall msg', encode_frame (E := doubles) self' msg'
                  = encode_frame (E := doubles) plain_instance msg').
Proof.
  apply (short_message_is_framed_and_queued doubles plain_instance [0x12]
           [0xAA; 0xAA; 0xAA; 0xAA; 0xd3; 0x91; 0xd3; 0x91]).
  - simpl. lia.
  - reflexivity.
  - reflexivity.
  - simpl. lia.
  - intros l. simpl. apply Z.mod_pos_bound. lia.
Defined.

(** C9, as the spec words it, does not hold: negative repetition counts
    are accepted by the constructor, and the instance frames packets. *)
Lemma negative_counts_are_accepted :
  __init__ (-1) 0xd3 0x91 (-2) 0xC0 false false =
    Return {| preamble_bytes := -1; sync_byte1 := 0xd3; sync_byte0 := 0x91;
              sync_words := -2; flags := 0xC0; fec := false; whitening := false;
              _buff := []; _out_buffer := [] |} /\
  handle_msg (E := doubles)
    {| preamble_bytes := -1; sync_byte1 := 0xd3; sync_byte0 := 0x91;
       sync_words := -2; flags := 0xC0; fec := false; whitening := false;
       _buff := []; _out_buffer := [] |} example_raw =
    Return {| preamble_bytes := -1; sync_byte1 := 0xd3; sync_byte0 := 0x91;
              sync_words := -2; flags := 0xC0; fec := false; whitening := false;
              _buff := [];
              _out_buffer :=
                [[0x09; 0xC0; 0x00; 0x01; 0xAB; 0xCD; 0x12; 0x34; 0x88; 0x02]] |}.
Proof. split; reflexivity. Qed.

(** C9 (amended): the constructor checks nothing.  For all arguments it
    returns an instance holding them unchanged, with both buffers empty.
    A repetition count that is zero or negative (down to -2^63, the
    smallest list index) is accepted and contributes no bytes: with both
    counts such, lines 73-75 build the empty preamble, and whenever they
    build a preamble, it holds [max(preamble_bytes, 0)] bytes [0xAA]
    followed by [max(sync_words, 0)] sync pairs. *)
Theorem init_accepts_every_configuration :
  forall (E : Collaborators) (pb s1 s0 sw fl : Z) (fe wh : bool),
    exists self,
      __init__ pb s1 s0 sw fl fe wh = Return self /\
      preamble_bytes self = pb /\ sync_byte1 self = s1 /\
      sync_byte0 self = s0 /\ sync_words self = sw /\ flags self = fl /\
      fec self = fe /\ whitening self = wh /\
      _buff self = [] /\ _out_buffer self = [] /\
      (- 2 ^ 63 <= pb <= 0 -> - 2 ^ 63 <= sw <= 0 ->
       preamble_of self = Return []) /\
      (forall preamble,
          preamble_of self = Return preamble ->
          preamble = repeat 0xAA (Z.to_nat pb) ++
                     concat (repeat [s1; s0] (Z.to_nat sw)) /\
          (pb <= 0 -> length preamble = (2 * Z.to_nat sw)%nat) /\
          (sw <= 0 -> preamble = repeat 0xAA (Z.to_nat pb))).
Proof.
  intros E pb s1 s0 sw fl fe wh. eexists. split; [reflexivity |].
  cbn [preamble_bytes sync_byte1 sync_byte0 sync_words flags fec whitening
       _buff _out_buffer].
  repeat (split; [reflexivity |]).
  split.
  - intros Hp Hw. apply preamble_of_nonpos; assumption.
  - intros preamble H. apply preamble_of_inv in H. subst preamble.
    unfold prefix_of.
    cbn [preamble_bytes sync_byte1 sync_byte0 sync_words].
    split; [reflexivity |]. split.
    + intros Hp. replace (Z.to_nat pb) with 0%nat by lia. cbn [repeat app].
      change (concat (repeat [s1; s0] (Z.to_nat sw))) with (repeated [s1; s0] sw).
      rewrite repeated_length. simpl. lia.
    + intros Hw. replace (Z.to_nat sw) with 0%nat by lia. cbn [repeat concat].
      apply app_nil_r.
Qed.

Lemma init_accepts_every_configuration_witness :
  exists self,
    __init__ (-1) 0xd3 0x91 (-2) 0xC0 false false = Return self /\
    preamble_of (E := doubles) self = Return [].
Proof.
  destruct (init_accepts_every_configuration doubles
              (-1) 0xd3 0x91 (-2) 0xC0 false false)
    as (self & Hi & _ & _ & _ & _ & _ & _ & _ & _ & _ & Hn & _).
  exists self. split; [exact Hi |]. apply Hn; lia.
Defined.

(** ** Draining the queue *)

Lemma ten_byte_frame_queued :
  handle_msg (E := doubles) bare_instance example_raw =
  Return (set_out_buffer bare_instance [ten_byte_frame]).
Proof. reflexivity. Qed.

Section Work.
Context {E : Collaborators}.

Lemma work_idle (self : openlst_mod) (input_items0 output_items0 : list Z) :
  _out_buffer self = [] ->
  work self input_items0 output_items0 =
  Return {| instance_after := self;
            output_after := output_items0;
            events := [Consume 0 (len input_items0)];
            returned := 0 |}.
Proof. intros H. unfold work. rewrite H. reflexivity. Qed.

Lemma work_busy (self : openlst_mod) (input_items0 output_items0 : list Z) :
  _out_buffer self <> [] ->
  let n := Nat.min (length (_out_buffer self)) (length output_items0) in
  work self input_items0 output_items0 =
  output' <- ndarray_setslice output_items0 n (firstn n (_out_buffer self)) ;;
  Return {| instance_after := set_out_buffer self (skipn n (_out_buffer self));
            output_after := output';
            events := Printed (firstn n (_out_buffer self)) ::
                      (if (n <? length output_items0)%nat
                       then [Consume 0 (Z.of_nat (length output_items0) - Z.of_nat n)]
                       else []);
            returned := Z.of_nat n |}.
Proof.
  intros H n. unfold work.
  destruct (_out_buffer self) as [| f q] eqn:Q; [contradiction |].
  reflexivity.
Qed.

(** A store that raises stops [work] before the queue is reassigned. *)
Lemma work_store_raises (self : openlst_mod) (input_items0 output_items0 : list Z)
    (e : exn) :
  _out_buffer self <> [] ->
  let n := Nat.min (length (_out_buffer self)) (length output_items0) in
  ndarray_setslice output_items0 n (firstn n (_out_buffer self)) = Raise e ->
  work self input_items0 output_items0 = Raise e.
Proof.
  intros H n Hs. rewrite work_busy by exact H. fold n. rewrite Hs. reflexivity.
Qed.

End Work.

(** C2 (the code departs from it): with one ten-byte frame queued and room
    for four bytes, [work] takes [min(1, 4) = 1] -- the number of queue
    entries, not of bytes -- stores the whole entry in one output slot,
    empties the queue and returns 1.  No run returns 4 or leaves the
    frame at the head of the queue. *)
Theorem work_counts_entries_not_bytes :
  forall (E : Collaborators) (input_items0 : list Z),
    work (set_out_buffer bare_instance [ten_byte_frame]) input_items0 [0; 0; 0; 0] =
      (output' <- ndarray_setslice [0; 0; 0; 0] 1 [ten_byte_frame] ;;
       Return {| instance_after := set_out_buffer bare_instance [];
                 output_after := output';
                 events := [Printed [ten_byte_frame]; Consume 0 3];
                 returned := 1 |}) /\
    ~ (exists r,
          work (set_out_buffer bare_instance [ten_byte_frame]) input_items0 [0; 0; 0; 0]
            = Return r /\
          (returned r = 4 \/ _out_buffer (instance_after r) = [ten_byte_frame])).
Proof.
  intros E input_items0.
  assert (Hw : work (set_out_buffer bare_instance [ten_byte_frame])
                 input_items0 [0; 0; 0; 0] =
               (output' <- ndarray_setslice [0; 0; 0; 0] 1 [ten_byte_frame] ;;
                Return {| instance_after := set_out_buffer bare_instance [];
                          output_after := output';
                          events := [Printed [ten_byte_frame]; Consume 0 3];
                          returned := 1 |})) by reflexivity.
  split; [exact Hw |].
  intros (r & Hr & Hclaim). rewrite Hw in Hr.
  apply bind_Return_inv in Hr. destruct Hr as (o & _ & Hr).
  inversion Hr as [Heq]. rewrite <- Heq in Hclaim. simpl in Hclaim.
  destruct Hclaim as [H4 | Hq]; discriminate.
Qed.

(** C8: with an empty queue [work] returns 0, leaves the output buffer
    and the instance as they are, and consumes all of the input. *)
Theorem idle_work_produces_nothing_and_consumes_input :
  forall (E : Collaborators) (self : openlst_mod)
         (input_items0 output_items0 : list Z),
    _out_buffer self = [] ->
    exists r,
      work self input_items0 output_items0 = Return r /\
      returned r = 0 /\
      output_after r = output_items0 /\
      instance_after r = self /\
      events r = [Consume 0 (len input_items0)].
Proof.
  intros E self input_items0 output_items0 H.
  eexists. split; [apply work_idle; exact H |].
  repeat split.
Qed.

Lemma idle_work_produces_nothing_and_consumes_input_witness :
  exists r,
    work (E := doubles) plain_instance [7; 7; 7] [0; 0; 0; 0] = Return r /\
    returned r = 0 /\
    output_after r = [0; 0; 0; 0] /\
    instance_after r = plain_instance /\
    events r = [Consume 0 (len [7; 7; 7])].
Proof.
  exact (idle_work_produces_nothing_and_consumes_input
           doubles plain_instance [7; 7; 7] [0; 0; 0; 0] eq_refl).
Defined.

(** C10 (the code departs from it): with one ten-byte frame queued and
    room for four output items, [work] sets out to remove [min(1, 4) = 1]
    entry and return 1, but the store of line 120 comes first: NumPy
    refuses to put a [bytearray] into one uint8 slot and raises
    [ValueError], so the call returns nothing and line 124 never
    reassigns the queue.  No entry is removed. *)
Theorem work_raises_before_removing_the_entry :
  forall (E : Collaborators) (input_items0 : list Z),
    stores_like_numpy E ->
    work (set_out_buffer bare_instance [ten_byte_frame]) input_items0 [0; 0; 0; 0]
      = Raise ValueError /\
    ~ (exists r,
          work (set_out_buffer bare_instance [ten_byte_frame]) input_items0 [0; 0; 0; 0]
            = Return r /\
          returned r = 1 /\ _out_buffer (instance_after r) = []).
Proof.
  intros E input_items0 HN.
  assert (Hw : work (set_out_buffer bare_instance [ten_byte_frame])
                 input_items0 [0; 0; 0; 0] = Raise ValueError).
  { rewrite work_busy by discriminate.
    cbn [_out_buffer set_out_buffer length Nat.min firstn].
    rewrite HN. reflexivity. }
  split; [exact Hw |].
  intros (r & Hr & _). rewrite Hw in Hr. discriminate Hr.
Qed.

Lemma work_raises_before_removing_the_entry_witness :
  work (E := doubles) (set_out_buffer bare_instance [ten_byte_frame])
       [7; 7; 7] [0; 0; 0; 0] = Raise ValueError.
Proof.
  refine (proj1 (work_raises_before_removing_the_entry doubles [7; 7; 7] _)).
  intros a n data. reflexivity.
Defined.

(** * Further properties of the block *)

(** ** Outcome of [handle_msg] *)

Section Outcome.
Context {E : Collaborators}.

Lemma segment_body_outcome (self : openlst_mod) (raw : bytes) :
  segment_body self raw =
  if is_byte (len raw + 3) && is_byte (flags self)
  then Return (body_of self raw)
  else Raise ValueError.
Proof.
  unfold segment_body, py_bytes. cbn [app forallb]. rewrite andb_true_r.
  destruct (is_byte (len raw + 3) && is_byte (flags self)); reflexivity.
Qed.

Lemma data_segment_outcome (self : openlst_mod) (raw : bytes) :
  data_segment self raw =
  if is_byte (len raw + 3) && is_byte (flags self) then
    if (0 <=? crc16 (body_of self raw)) && (crc16 (body_of self raw) <? 65536)
    then Return (body_of self raw ++
                 [crc16 (body_of self raw) mod 256; crc16 (body_of self raw) / 256])
    else Raise OverflowError
  else Raise ValueError.
Proof.
  unfold data_segment. rewrite segment_body_outcome.
  destruct (is_byte (len raw + 3) && is_byte (flags self)); cbn [bind];
    [| reflexivity].
  unfold to_bytes_2_little.
  destruct ((0 <=? crc16 (body_of self raw)) &&
            (crc16 (body_of self raw) <? 65536)); reflexivity.
Qed.

Lemma handle_msg_outcome (self : openlst_mod) (msg items : list Z) :
  preamble_items self = Return items ->
  handle_msg self msg =
  if constructors_accept self msg then
    if (0 <=? crc16 (body_of self msg)) && (crc16 (body_of self msg) <? 65536)
    then Return (set_out_buffer self (_out_buffer self ++ [frame_of self msg]))
    else Raise OverflowError
  else Raise ValueError.
Proof.
  intros Hi. unfold handle_msg, encode_frame, constructors_accept.
  unfold py_bytes at 1.
  destruct (forallb is_byte msg); cbn [bind andb]; [| reflexivity].
  rewrite (preamble_of_outcome self items Hi).
  destruct ((sync_words self <=? 0) ||
            (is_byte (sync_byte1 self) && is_byte (sync_byte0 self)));
    cbn [bind andb]; [| reflexivity].
  rewrite data_segment_outcome.
  destruct (is_byte (len msg + 3)); cbn [bind andb]; [| reflexivity].
  destruct (is_byte (flags self)); cbn [bind andb]; [| reflexivity].
  destruct ((0 <=? crc16 (body_of self msg)) &&
            (crc16 (body_of self msg) <? 65536)); reflexivity.
Qed.

(** What a returning [handle_msg] tells about its arguments. *)
Lemma handle_msg_returns_only_if (self self' : openlst_mod) (msg : list Z) :
  handle_msg self msg = Return self' ->
  forallb is_byte msg = true /\
  (exists preamble, preamble_of self = Return preamble) /\
  len msg <= 252 /\
  0 <= flags self < 256 /\
  0 <= crc16 (body_of self msg) < 65536.
Proof.
  intros H. apply handle_msg_inv in H. destruct H as (frame & Hf & _).
  apply encode_frame_inv in Hf.
  destruct Hf as (preamble & seg & Hm & Hp & Hs & _).
  apply py_bytes_inv in Hm. destruct Hm as [_ Hm].
  apply data_segment_inv in Hs. destruct Hs as (Hb & Hc & _).
  apply segment_body_inv in Hb. destruct Hb as (_ & Hl & Hfl).
  apply is_byte_range in Hl. apply is_byte_range in Hfl.
  split; [exact Hm |]. split; [exists preamble; exact Hp |].
  split; [lia |]. split; [exact Hfl | exact Hc].
Qed.

End Outcome.

Lemma constructors_accept_iff (self : openlst_mod) (msg : list Z) :
  constructors_accept self msg = true <->
  forallb is_byte msg = true /\
  len msg <= 252 /\
  0 <= flags self < 256 /\
  (0 < sync_words self ->
   0 <= sync_byte1 self < 256 /\ 0 <= sync_byte0 self < 256).
Proof.
  unfold constructors_accept.
  rewrite !andb_true_iff, orb_true_iff, andb_true_iff, Z.leb_le, !is_byte_range.
  unfold len. split.
  - intros [[[Hm Hs] Hl] Hf].
    split; [exact Hm |]. split; [lia |]. split; [exact Hf |].
    intros Hp. destruct Hs as [Hs | Hs]; [lia | exact Hs].
  - intros (Hm & Hl & Hf & Hs).
    split; [| exact Hf]. split; [| lia]. split; [exact Hm |].
    destruct (Z_lt_le_dec 0 (sync_words self)) as [Hp | Hp].
    + right. apply Hs. exact Hp.
    + left. exact Hp.
Qed.

Lemma u16_check_iff (c : Z) :
  (0 <=? c) && (c <? 65536) = true <-> 0 <= c < 65536.
Proof. rewrite andb_true_iff, Z.leb_le, Z.ltb_lt. tauto. Qed.

(** X1: [handle_msg] returns normally exactly when the message is made of
    bytes and is at most 252 bytes long, the preamble of lines 73-75 is
    built, the flags fit a byte and the checksum of the bytes before it
    fits 16 bits; the queue plays no part.  A built preamble means counts
    that fit a list index and, when sync words are asked for, sync bytes
    that fit a byte. *)
Theorem handle_msg_returns_iff :
  forall (E : Collaborators) (self : openlst_mod) (msg : list Z),
    ((exists self', handle_msg self msg = Return self') <->
     (forallb is_byte msg = true /\
      (exists preamble, preamble_of self = Return preamble) /\
      len msg <= 252 /\
      0 <= flags self < 256 /\
      0 <= crc16 ([len msg + 3; flags self] ++ skipn 2 msg ++ firstn 2 msg) < 65536)) /\
    ((exists self', handle_msg self msg = Return self') ->
     - 2 ^ 63 <= preamble_bytes self < 2 ^ 63 /\
     - 2 ^ 63 <= sync_words self < 2 ^ 63 /\
     (0 < sync_words self ->
      0 <= sync_byte1 self < 256 /\ 0 <= sync_byte0 self < 256)).
Proof.
  intros E self msg. fold (body_of self msg). split; [split |].
  - intros [self' H]. exact (handle_msg_returns_only_if _ _ _ H).
  - intros (Hm & [preamble Hp] & Hl & Hf & Hc).
    eexists. apply (handle_msg_ok self msg preamble); auto. lia.
  - intros [self' H]. apply handle_msg_returns_only_if in H.
    destruct H as (_ & [preamble Hp] & _).
    exact (preamble_of_returns_only_if _ _ Hp).
Qed.

Lemma handle_msg_returns_iff_witness :
  - 2 ^ 63 <= 4 < 2 ^ 63 /\ - 2 ^ 63 <= 2 < 2 ^ 63 /\
  (0 < 2 -> 0 <= 0xd3 < 256 /\ 0 <= 0x91 < 256).
Proof.
  apply (proj2 (handle_msg_returns_iff doubles plain_instance example_raw)).
  apply (proj2 (proj1 (handle_msg_returns_iff doubles plain_instance example_raw))).
  split; [reflexivity |]. split; [eexists; reflexivity |].
  split; [vm_compute; discriminate |]. split; [simpl; lia |].
  vm_compute. split; [discriminate | reflexivity].
Defined.

(** X2: a message of 253 bytes or more is never queued: [handle_msg]
    raises for every configuration and every collaborator, and when the
    lists of lines 74-75 are built the exception is [ValueError] (the
    message is not made of bytes, a sync byte does not fit, or the length
    byte [len(raw) + 3] does not fit a byte). *)
Theorem oversize_message_raises_ValueError :
  forall (E : Collaborators) (self : openlst_mod) (msg : list Z),
    253 <= len msg ->
    (forall self', handle_msg self msg <> Return self') /\
    (forall items, preamble_items self = Return items ->
                   handle_msg self msg = Raise ValueError).
Proof.
  intros E self msg H. split.
  - intros self' Hr. apply handle_msg_returns_only_if in Hr. lia.
  - intros items Hi. rewrite (handle_msg_outcome self msg items Hi).
    destruct (constructors_accept self msg) eqn:Hc; [| reflexivity].
    apply constructors_accept_iff in Hc. lia.
Qed.

Lemma oversize_message_raises_ValueError_witness :
  handle_msg (E := doubles) plain_instance (repeat 0 253) = Raise ValueError.
Proof.
  refine (proj2 (oversize_message_raises_ValueError doubles plain_instance
                   (repeat 0 253) _)
                [0xAA; 0xAA; 0xAA; 0xAA; 0xd3; 0x91; 0xd3; 0x91] eq_refl).
  vm_compute. discriminate.
Defined.

(** X3: the constructor accepts flags or sync bytes that do not fit a
    byte (for the sync bytes: with at least one sync word asked for); on
    such an instance no call of [handle_msg] ever returns, and when the
    lists of lines 74-75 are built the exception is [ValueError]. *)
Theorem unusable_configuration_raises_on_every_message :
  forall (E : Collaborators) (pb s1 s0 sw fl : Z) (fe wh : bool) (self : openlst_mod),
    __init__ pb s1 s0 sw fl fe wh = Return self ->
    (fl < 0 \/ 256 <= fl \/
     (0 < sw /\ (s1 < 0 \/ 256 <= s1 \/ s0 < 0 \/ 256 <= s0))) ->
    forall msg,
      (forall self', handle_msg self msg <> Return self') /\
      (forall items, preamble_items self = Return items ->
                     handle_msg self msg = Raise ValueError).
Proof.
  intros E pb s1 s0 sw fl fe wh self Hi Hbad msg.
  inversion Hi; subst self; clear Hi. split.
  - intros self' Hr. pose proof Hr as Hr'.
    apply handle_msg_returns_only_if in Hr.
    destruct Hr as (_ & [preamble Hp] & _ & Hf & _).
    apply preamble_of_returns_only_if in Hp. destruct Hp as (_ & _ & Hs).
    cbn [flags sync_words sync_byte1 sync_byte0] in Hf, Hs.
    destruct Hbad as [Hb | [Hb | [Hp Hb]]]; [lia | lia |].
    specialize (Hs Hp). lia.
  - intros items Hit. rewrite (handle_msg_outcome _ msg items Hit).
    destruct (constructors_accept _ msg) eqn:Hc; [| reflexivity].
    apply constructors_accept_iff in Hc.
    cbn [flags sync_words sync_byte1 sync_byte0] in Hc.
    destruct Hc as (_ & _ & Hf & Hs).
    destruct Hbad as [Hb | [Hb | [Hp Hb]]]; [lia | lia |].
    specialize (Hs Hp). lia.
Qed.

Lemma unusable_configuration_raises_on_every_message_witness :
  exists self,
    __init__ 4 0xd3 0x91 2 0x1C0 true true = Return self /\
    handle_msg (E := doubles) self example_raw = Raise ValueError.
Proof.
  eexists. split; [reflexivity |].
  refine (proj2 (unusable_configuration_raises_on_every_message
                   doubles 4 0xd3 0x91 2 0x1C0 true true _ eq_refl _ example_raw)
                [0xAA; 0xAA; 0xAA; 0xAA; 0xd3; 0x91; 0xd3; 0x91] eq_refl).
  right. left. lia.
Defined.

(** X4: once the lists of lines 74-75 are built, [handle_msg] raises
    [OverflowError] exactly when the message and the configuration pass
    the byte checks and [crc16] returns a value outside [0, 65536); it
    raises [ValueError] exactly when a byte check fails; it never raises
    [MemoryError]. *)
Theorem handle_msg_error_kinds :
  forall (E : Collaborators) (self : openlst_mod) (msg items : list Z),
    preamble_items self = Return items ->
    (handle_msg self msg = Raise OverflowError <->
     constructors_accept self msg = true /\
     ~ 0 <= crc16 ([len msg + 3; flags self] ++ skipn 2 msg ++ firstn 2 msg) < 65536) /\
    (handle_msg self msg = Raise ValueError <->
     constructors_accept self msg = false) /\
    handle_msg self msg <> Raise MemoryError.
Proof.
  intros E self msg items Hi. fold (body_of self msg).
  rewrite (handle_msg_outcome self msg items Hi).
  destruct (constructors_accept self msg) eqn:Hc.
  - destruct ((0 <=? crc16 (body_of self msg)) &&
              (crc16 (body_of self msg) <? 65536)) eqn:Hr.
    + apply u16_check_iff in Hr. split; [| split; [| discriminate]]; split;
        try (intros H; discriminate H); intros [_ H]; contradiction.
    + assert (Hn : ~ 0 <= crc16 (body_of self msg) < 65536).
      { intros H. apply u16_check_iff in H. congruence. }
      split; [| split; [| discriminate]]; split;
        try (intros H; discriminate H); auto.
  - split; [| split; [| discriminate]]; split;
      try (intros H; discriminate H); auto.
    intros [H _]. discriminate H.
Qed.

Lemma handle_msg_error_kinds_witness :
  handle_msg (E := doubles) plain_instance (repeat 0 253) = Raise ValueError <->
  constructors_accept plain_instance (repeat 0 253) = false.
Proof.
  exact (proj1 (proj2 (handle_msg_error_kinds doubles plain_instance (repeat 0 253)
                         [0xAA; 0xAA; 0xAA; 0xAA; 0xd3; 0x91; 0xd3; 0x91] eq_refl))).
Defined.

(** X13: the constructor accepts a repetition count that does not fit a
    list index (below -2^63 or at least 2^63); on such an instance
    [handle_msg] raises [OverflowError] on every message made of bytes:
    at line 74 for [preamble_bytes], and at line 75 for [sync_words] when
    [preamble_bytes] asks for no bytes. *)
Theorem count_outside_index_range_raises_OverflowError :
  forall (E : Collaborators) (pb s1 s0 sw fl : Z) (fe wh : bool)
         (self : openlst_mod) (msg : list Z),
    __init__ pb s1 s0 sw fl fe wh = Return self ->
    forallb is_byte msg = true ->
    (pb < - 2 ^ 63 \/ 2 ^ 63 <= pb \/
     (- 2 ^ 63 <= pb <= 0 /\ (sw < - 2 ^ 63 \/ 2 ^ 63 <= sw))) ->
    handle_msg self msg = Raise OverflowError.
Proof.
  intros E pb s1 s0 sw fl fe wh self msg Hi Hm Hbad.
  inversion Hi; subst self; clear Hi.
  unfold handle_msg, encode_frame. rewrite py_bytes_ok by exact Hm. cbn [bind].
  unfold preamble_of, preamble_items.
  cbn [preamble_bytes sync_words sync_byte1 sync_byte0].
  destruct Hbad as [Hb | [Hb | [Hp Hb]]].
  - rewrite py_list_mul_out_of_range by (left; exact Hb). reflexivity.
  - rewrite py_list_mul_out_of_range by (right; exact Hb). reflexivity.
  - rewrite py_list_mul_nonpos by exact Hp. cbn [bind].
    rewrite py_list_mul_out_of_range by exact Hb. reflexivity.
Qed.

Lemma count_outside_index_range_raises_OverflowError_witness :
  exists self,
    __init__ (- 2 ^ 63 - 1) 0xd3 0x91 2 0xC0 true true = Return self /\
    handle_msg (E := doubles) self example_raw = Raise OverflowError.
Proof.
  eexists. split; [reflexivity |].
  apply (count_outside_index_range_raises_OverflowError
           doubles (- 2 ^ 63 - 1) 0xd3 0x91 2 0xC0 true true _ example_raw eq_refl).
  - reflexivity.
  - left. lia.
Defined.

(** ** More on the data segment and the frame *)

Lemma app_inj_length {A : Type} (a a' b b' : list A) :
  length a = length a' -> a ++ b = a' ++ b' -> a = a' /\ b = b'.
Proof.
  revert a'. induction a as [| x a IH]; intros [| x' a'] Hl H;
    simpl in Hl; try discriminate Hl.
  - split; [reflexivity | exact H].
  - simpl in H. injection H as Hx Ht.
    destruct (IH a' ltac:(lia) Ht) as [-> ->]. subst x'. split; reflexivity.
Qed.

(** X5: the data segment determines the raw message: two messages framed
    to the same segment (same configuration) are equal, so the HWID
    relocation loses nothing, also for messages shorter than two bytes. *)
Theorem data_segment_injective :
  forall (E : Collaborators) (self : openlst_mod) (raw1 raw2 seg : bytes),
    data_segment self raw1 = Return seg ->
    data_segment self raw2 = Return seg ->
    raw1 = raw2.
Proof.
  intros E self raw1 raw2 seg H1 H2.
  apply data_segment_inv in H1. destruct H1 as (_ & _ & E1).
  apply data_segment_inv in H2. destruct H2 as (_ & _ & E2).
  assert (Hlen : length raw1 = length raw2).
  { assert (L1 : length seg = (length raw1 + 2 + 2)%nat)
      by (rewrite E1, length_app, body_of_length; reflexivity).
    assert (L2 : length seg = (length raw2 + 2 + 2)%nat)
      by (rewrite E2, length_app, body_of_length; reflexivity).
    lia. }
  rewrite E1 in E2.
  apply app_inj_length in E2;
    [| rewrite !body_of_length; lia].
  destruct E2 as [Hb _]. unfold body_of in Hb.
  apply app_inj_length in Hb; [| reflexivity].
  destruct Hb as [_ Hb].
  apply app_inj_length in Hb;
    [| rewrite !length_skipn; lia].
  destruct Hb as [Hs Hf].
  rewrite <- (firstn_skipn 2 raw1), <- (firstn_skipn 2 raw2), Hs, Hf.
  reflexivity.
Qed.

Lemma data_segment_injective_witness :
  [0x12; 0x34; 0x00; 0x01; 0xAB; 0xCD] = example_raw.
Proof.
  exact (data_segment_injective doubles plain_instance
           [0x12; 0x34; 0x00; 0x01; 0xAB; 0xCD] example_raw
           [0x09; 0xC0; 0x00; 0x01; 0xAB; 0xCD; 0x12; 0x34; 0x88; 0x02]
           eq_refl eq_refl).
Defined.

Lemma xor_counter_length (i : Z) (l : bytes) :
  length (xor_counter i l) = length l.
Proof.
  revert i. induction l as [| b l IH]; intros i; simpl.
  - reflexivity.
  - rewrite IH. reflexivity.
Qed.

(** X6: without FEC, and with a whitener that keeps the length when
    whitening is on, the frame [handle_msg] queues is
    [max(preamble_bytes, 0) + 2 * max(sync_words, 0) + len(raw) + 4]
    bytes long. *)
Theorem frame_length_without_fec :
  forall (E : Collaborators) (self self' : openlst_mod) (msg : list Z),
    handle_msg self msg = Return self' ->
    fec self = false ->
    (whitening self = true -> forall l, length (whiten l) = length l) ->
    exists frame,
      _out_buffer self' = _out_buffer self ++ [frame] /\
      length frame =
        (Z.to_nat (preamble_bytes self) + 2 * Z.to_nat (sync_words self) +
         length msg + 4)%nat.
Proof.
  intros E self self' msg H Hfec Hwh.
  apply handle_msg_inv in H. destruct H as (frame & Hf & ->).
  apply encode_frame_inv in Hf. destruct Hf as (preamble & seg & _ & Hp & Hs & ->).
  apply preamble_of_inv in Hp. subst preamble.
  apply data_segment_inv in Hs. destruct Hs as (_ & _ & ->).
  eexists. split; [reflexivity |].
  rewrite length_app, prefix_of_length.
  assert (Ht : forall l, length (transform self l) = length l).
  { intros l. unfold transform. rewrite Hfec.
    destruct (whitening self); [apply Hwh; reflexivity | reflexivity]. }
  rewrite Ht, length_app, body_of_length. simpl. lia.
Qed.

Lemma frame_length_without_fec_witness :
  exists frame,
    _out_buffer
      (set_out_buffer
         {| preamble_bytes := 4; sync_byte1 := 0xd3; sync_byte0 := 0x91;
            sync_words := 2; flags := 0xC0; fec := false; whitening := true;
            _buff := []; _out_buffer := [] |}
         [[0xAA; 0xAA; 0xAA; 0xAA; 0xd3; 0x91; 0xd3; 0x91;
           9; 193; 2; 2; 175; 200; 20; 51; 128; 11]])
      = [] ++ [frame] /\
    length frame = (Z.to_nat 4 + 2 * Z.to_nat 2 + length example_raw + 4)%nat.
Proof.
  apply (frame_length_without_fec doubles
           {| preamble_bytes := 4; sync_byte1 := 0xd3; sync_byte0 := 0x91;
              sync_words := 2; flags := 0xC0; fec := false; whitening := true;
              _buff := []; _out_buffer := [] |} _ example_raw eq_refl).
  - reflexivity.
  - intros _ l. apply xor_counter_length.
Defined.

(** ** One call of [work], seen from outside *)

Lemma set_out_buffer_same (self : openlst_mod) :
  set_out_buffer self (_out_buffer self) = self.
Proof. destruct self; reflexivity. Qed.

Section WorkCalls.
Context {E : Collaborators}.

Lemma work_inv (self : openlst_mod) (input_items0 output_items0 : list Z)
    (r : work_outcome) :
  work self input_items0 output_items0 = Return r ->
  let n := Nat.min (length (_out_buffer self)) (length output_items0) in
  instance_after r = set_out_buffer self (skipn n (_out_buffer self)) /\
  returned r = Z.of_nat n /\
  printed (events r) = firstn n (_out_buffer self) /\
  consumed (events r) =
    match _out_buffer self with
    | [] => len input_items0
    | _ :: _ => len output_items0 - Z.of_nat n
    end.
Proof.
  intros H n.
  destruct (_out_buffer self) as [| f q] eqn:Q.
  - rewrite work_idle in H by exact Q. inversion H. subst n. simpl.
    rewrite <- Q, set_out_buffer_same. repeat split. lia.
  - assert (Hne : _out_buffer self <> []) by (rewrite Q; discriminate).
    rewrite work_busy in H by exact Hne.
    apply bind_Return_inv in H. destruct H as (o & _ & H).
    rewrite Q in H. fold n in H. inversion H. cbn [instance_after returned events].
    split; [reflexivity |]. split; [reflexivity |].
    split.
    + unfold printed. cbn [flat_map].
      destruct (n <? length output_items0)%nat; cbn [flat_map];
        rewrite ?app_nil_r; reflexivity.
    + unfold consumed, len.
      destruct (n <? length output_items0)%nat eqn:Hlt; cbn [fold_right].
      * lia.
      * apply Nat.ltb_ge in Hlt. subst n. lia.
Qed.

End WorkCalls.

(** ** [work] with NumPy's store *)

Section NumpyStore.
Context {E : Collaborators}.
Hypothesis numpy : stores_like_numpy E.

(** With entries queued and room in the output buffer the store raises. *)
Lemma work_raises_with_room (self : openlst_mod) (input_items0 output_items0 : list Z) :
  _out_buffer self <> [] -> output_items0 <> [] ->
  work self input_items0 output_items0 = Raise ValueError.
Proof.
  intros Hq Ho. rewrite work_busy by exact Hq. rewrite numpy.
  destruct (_out_buffer self) as [| f q]; [contradiction |].
  destruct output_items0 as [| b o]; [contradiction |].
  reflexivity.
Qed.

(** With entries queued and no room the store is given nothing to do. *)
Lemma work_returns_without_room (self : openlst_mod) (input_items0 : list Z) :
  _out_buffer self <> [] ->
  work self input_items0 [] =
  Return {| instance_after := self; output_after := [];
            events := [Printed []]; returned := 0 |}.
Proof.
  intros Hq. rewrite work_busy by exact Hq. rewrite numpy.
  cbn [length]. rewrite Nat.min_0_r. cbn [firstn skipn numpy_setslice bind].
  rewrite set_out_buffer_same. reflexivity.
Qed.

(** A call that returns leaves everything as it was. *)
Lemma work_returns_unchanged (self : openlst_mod) (input_items0 output_items0 : list Z)
    (r : work_outcome) :
  work self input_items0 output_items0 = Return r ->
  instance_after r = self /\ output_after r = output_items0 /\
  returned r = 0 /\ printed (events r) = [] /\
  (_out_buffer self = [] \/ output_items0 = []).
Proof.
  intros H.
  destruct (_out_buffer self) as [| f q] eqn:Q.
  - rewrite work_idle in H by exact Q. inversion H.
    cbn [instance_after output_after returned events printed flat_map app].
    repeat split; auto.
  - assert (Hq : _out_buffer self <> []) by (rewrite Q; discriminate).
    destruct output_items0 as [| b o].
    + rewrite work_returns_without_room in H by exact Hq.
      inversion H.
      cbn [instance_after output_after returned events printed flat_map app].
      repeat split; auto.
    + rewrite work_raises_with_room in H by (assumption || discriminate).
      discriminate H.
Qed.

End NumpyStore.

(** X7: with NumPy's store, [work] never hands out a queue entry.  With
    entries queued and room in the output buffer it raises [ValueError]
    at the store of line 120, whatever the input; a call that returns has
    found the queue or the output buffer empty, returns 0 and leaves the
    instance and the output buffer as they were. *)
Theorem work_never_hands_out_an_entry :
  forall (E : Collaborators) (self : openlst_mod)
         (input_items0 output_items0 : list Z),
    stores_like_numpy E ->
    (_out_buffer self <> [] -> output_items0 <> [] ->
     work self input_items0 output_items0 = Raise ValueError) /\
    (forall r,
        work self input_items0 output_items0 = Return r ->
        instance_after r = self /\ output_after r = output_items0 /\
        returned r = 0 /\ printed (events r) = [] /\
        (_out_buffer self = [] \/ output_items0 = [])).
Proof.
  intros E self input_items0 output_items0 HN. split.
  - intros Hq Ho. apply work_raises_with_room; assumption.
  - intros r H. exact (work_returns_unchanged HN _ _ _ _ H).
Qed.

Lemma work_never_hands_out_an_entry_witness :
  work (E := doubles)
       (set_out_buffer bare_instance [ten_byte_frame; ten_byte_frame])
       [7; 7] [0; 0; 0] = Raise ValueError.
Proof.
  refine (proj1 (work_never_hands_out_an_entry doubles
                   (set_out_buffer bare_instance [ten_byte_frame; ten_byte_frame])
                   [7; 7] [0; 0; 0] _) _ _).
  - intros a n data. reflexivity.
  - discriminate.
  - discriminate.
Defined.

(** X8: with NumPy's store and an empty output buffer, [work] returns 0
    and changes nothing; if entries are queued it does not call
    [consume], so the pending input is kept, whatever its length. *)
Theorem work_without_output_room :
  forall (E : Collaborators) (self : openlst_mod) (input_items0 : list Z),
    stores_like_numpy E ->
    exists r,
      work self input_items0 [] = Return r /\
      instance_after r = self /\ output_after r = [] /\ returned r = 0 /\
      (_out_buffer self <> [] -> events r = [Printed []] /\ consumed (events r) = 0).
Proof.
  intros E self input_items0 HN.
  destruct (_out_buffer self) as [| f q] eqn:Q.
  - eexists. split; [apply work_idle; exact Q |].
    cbn [instance_after output_after returned events].
    do 3 (split; [reflexivity |]). intros Hne. contradiction.
  - assert (Hq : _out_buffer self <> []) by (rewrite Q; discriminate).
    eexists. split; [apply (work_returns_without_room HN); exact Hq |].
    cbn [instance_after output_after returned events].
    do 3 (split; [reflexivity |]). intros _. split; reflexivity.
Qed.

Lemma work_without_output_room_witness :
  exists r,
    work (E := doubles) (set_out_buffer bare_instance [ten_byte_frame]) [7; 7; 7] []
      = Return r /\
    instance_after r = set_out_buffer bare_instance [ten_byte_frame] /\
    output_after r = [] /\ returned r = 0 /\
    (_out_buffer (set_out_buffer bare_instance [ten_byte_frame]) <> [] ->
     events r = [Printed []] /\ consumed (events r) = 0).
Proof.
  apply (work_without_output_room doubles
           (set_out_buffer bare_instance [ten_byte_frame]) [7; 7; 7]).
  intros a n data. reflexivity.
Defined.

(** ** Sequences of calls *)

Lemma set_out_buffer_twice (self : openlst_mod) (q q' : list bytes) :
  set_out_buffer (set_out_buffer self q) q' = set_out_buffer self q'.
Proof. reflexivity. Qed.

Section CallSequences.
Context {E : Collaborators}.

Lemma handle_msgs_inv (msgs : list (list Z)) :
  forall self self',
    handle_msgs self msgs = Return self' ->
    exists frames,
      Forall2 (fun m f => encode_frame self m = Return f) msgs frames /\
      self' = set_out_buffer self (_out_buffer self ++ frames).
Proof.
  induction msgs as [| m ms IH]; intros self self' H; simpl in H.
  - inversion H. exists []. split; [constructor |].
    rewrite app_nil_r, set_out_buffer_same. reflexivity.
  - apply bind_Return_inv in H. destruct H as (s1 & H1 & H).
    apply handle_msg_inv in H1. destruct H1 as (f & Hf & ->).
    apply IH in H. destruct H as (fs & Hfs & ->).
    exists (f :: fs). split.
    + constructor; [exact Hf | exact Hfs].
    + cbn [_out_buffer set_out_buffer]. rewrite <- app_assoc. reflexivity.
Qed.

End CallSequences.

(** X10: messages handled one after the other are queued in arrival
    order behind what was already queued: the queue grows by exactly one
    frame per message, each frame being the one the configuration alone
    determines for that message. *)
Theorem handle_msgs_queue_in_arrival_order :
  forall (E : Collaborators) (self self' : openlst_mod) (msgs : list (list Z)),
    handle_msgs self msgs = Return self' ->
    exists frames,
      Forall2 (fun m f => encode_frame self m = Return f) msgs frames /\
      _out_buffer self' = _out_buffer self ++ frames /\
      length (_out_buffer self') = (length (_out_buffer self) + length msgs)%nat /\
      self' = set_out_buffer self (_out_buffer self').
Proof.
  intros E self self' msgs H.
  apply (handle_msgs_inv msgs) in H. destruct H as (frames & HF & ->).
  exists frames. cbn [_out_buffer set_out_buffer].
  split; [exact HF |]. split; [reflexivity |]. split; [| reflexivity].
  rewrite length_app. f_equal. symmetry. exact (Forall2_length HF).
Qed.

Lemma handle_msgs_queue_in_arrival_order_witness :
  exists frames,
    Forall2 (fun m f => encode_frame (E := doubles) bare_instance m = Return f)
            [example_raw; [0x12]] frames /\
    _out_buffer (set_out_buffer bare_instance
                   [ten_byte_frame; [0x04; 0xC0; 0x12; 0xD6; 0x00]])
      = [] ++ frames /\
    length (_out_buffer (set_out_buffer bare_instance
                           [ten_byte_frame; [0x04; 0xC0; 0x12; 0xD6; 0x00]]))
      = (0 + 2)%nat /\
    set_out_buffer bare_instance [ten_byte_frame; [0x04; 0xC0; 0x12; 0xD6; 0x00]]
      = set_out_buffer bare_instance
          (_out_buffer (set_out_buffer bare_instance
                          [ten_byte_frame; [0x04; 0xC0; 0x12; 0xD6; 0x00]])).
Proof.
  exact (handle_msgs_queue_in_arrival_order doubles bare_instance _
           [example_raw; [0x12]] eq_refl).
Defined.

(** X11: with NumPy's store, a message [handle_msg] has accepted is never
    transmitted: after the call, every call of [work] with room in the
    output buffer raises [ValueError], and every call of [work] that
    returns leaves the frame queued. *)
Theorem accepted_message_is_never_transmitted :
  forall (E : Collaborators) (self self' : openlst_mod) (msg : list Z)
         (input_items0 output_items0 : list Z),
    stores_like_numpy E ->
    handle_msg self msg = Return self' ->
    (output_items0 <> [] ->
     work self' input_items0 output_items0 = Raise ValueError) /\
    (forall r,
        work self' input_items0 output_items0 = Return r ->
        exists frame,
          encode_frame self msg = Return frame /\
          _out_buffer (instance_after r) = _out_buffer self ++ [frame] /\
          returned r = 0).
Proof.
  intros E self self' msg input_items0 output_items0 HN H.
  apply handle_msg_inv in H. destruct H as (frame & Hf & ->). split.
  - intros Ho. apply (work_raises_with_room HN); [| exact Ho].
    cbn [_out_buffer set_out_buffer]. intros Hnil.
    apply app_eq_nil in Hnil. destruct Hnil as [_ Hnil]. discriminate Hnil.
  - intros r Hr. apply (work_returns_unchanged HN) in Hr.
    destruct Hr as (Hi & _ & H0 & _).
    exists frame. rewrite Hi. auto.
Qed.

Lemma accepted_message_is_never_transmitted_witness :
  work (E := doubles) (set_out_buffer bare_instance [ten_byte_frame]) [] [0]
    = Raise ValueError.
Proof.
  refine (proj1 (accepted_message_is_never_transmitted doubles
                   bare_instance _ example_raw [] [0] _ eq_refl) _).
  - intros a n data. reflexivity.
  - discriminate.
Defined.

(** ** What holds of every instance the block can get into *)

Section Reachability.
Context {E : Collaborators}.

Lemma step_keeps_configuration (self self' : openlst_mod) :
  step self self' ->
  self' = set_out_buffer self (_out_buffer self') /\
  forall frame,
    In frame (_out_buffer self') ->
    In frame (_out_buffer self) \/
    exists msg, encode_frame self msg = Return frame.
Proof.
  intros [s s' msg H | s i o r H].
  - apply handle_msg_inv in H. destruct H as (frame & Hf & ->).
    cbn [_out_buffer set_out_buffer]. split; [reflexivity |].
    intros f Hin. apply in_app_or in Hin. destruct Hin as [Hin | [<- | []]].
    + left. exact Hin.
    + right. exists msg. exact Hf.
  - apply work_inv in H. destruct H as (Hi & _).
    rewrite Hi. cbn [_out_buffer set_out_buffer]. split; [reflexivity |].
    intros f Hin. left.
    rewrite <- (firstn_skipn
                  (Nat.min (length (_out_buffer s)) (length o)) (_out_buffer s)).
    apply in_or_app. right. exact Hin.
Qed.

Lemma reachable_keeps_configuration (self0 self : openlst_mod) :
  reachable self0 self ->
  self = set_out_buffer self0 (_out_buffer self) /\
  forall frame,
    In frame (_out_buffer self) ->
    In frame (_out_buffer self0) \/
    exists msg, encode_frame self0 msg = Return frame.
Proof.
  induction 1 as [| s s' Hr [IHs IHq] Hstep].
  - split; [symmetry; apply set_out_buffer_same |]. intros f Hin. left. exact Hin.
  - apply step_keeps_configuration in Hstep. destruct Hstep as [Hs Hq].
    split.
    + rewrite Hs. rewrite IHs at 1. reflexivity.
    + intros f Hin. destruct (Hq f Hin) as [Hold | [msg Hnew]].
      * apply IHq. exact Hold.
      * right. exists msg. rewrite IHs in Hnew. exact Hnew.
Qed.

End Reachability.

(** X12: whatever calls of [handle_msg] and [work] follow the
    constructor, the instance keeps the constructor's arguments, [_buff]
    stays empty, and every queue entry is the frame [handle_msg] builds
    for some message under that configuration; in particular every
    entry starts with the configured preamble and sync words. *)
Theorem reachable_instances_keep_configuration_and_frames :
  forall (E : Collaborators) (pb s1 s0 sw fl : Z) (fe wh : bool)
         (self0 self : openlst_mod),
    __init__ pb s1 s0 sw fl fe wh = Return self0 ->
    reachable self0 self ->
    preamble_bytes self = pb /\ sync_byte1 self = s1 /\ sync_byte0 self = s0 /\
    sync_words self = sw /\ flags self = fl /\ fec self = fe /\
    whitening self = wh /\ _buff self = [] /\
    Forall (fun frame =>
              (exists msg, encode_frame self0 msg = Return frame) /\
              firstn (Z.to_nat pb + 2 * Z.to_nat sw) frame =
                repeat 0xAA (Z.to_nat pb) ++ concat (repeat [s1; s0] (Z.to_nat sw)))
           (_out_buffer self).
Proof.
  intros E pb s1 s0 sw fl fe wh self0 self Hi Hr.
  apply reachable_keeps_configuration in Hr. destruct Hr as [Hs Hq].
  inversion Hi as [H0]. subst self0.
  do 8 (split; [rewrite Hs; reflexivity |]).
  apply Forall_forall. intros frame Hin.
  destruct (Hq frame Hin) as [Hold | [msg Hm]].
  - destruct Hold.
  - split; [exists msg; exact Hm |].
    apply encode_frame_inv in Hm.
    destruct Hm as (preamble & seg & _ & Hp & _ & ->).
    apply preamble_of_inv in Hp. subst preamble.
    apply firstn_exact.
    exact (prefix_of_length (Build_openlst_mod pb s1 s0 sw fl fe wh [] [])).
Qed.

Lemma reachable_instances_keep_configuration_and_frames_witness :
  flags (set_out_buffer default_self
           [[0xAA; 0xAA; 0xAA; 0xAA; 0xd3; 0x91; 0xd3; 0x91;
             9; 9; 193; 193; 2; 2; 2; 2; 175; 175;
             200; 200; 20; 20; 51; 51; 128; 128; 11; 11];
            [0xAA; 0xAA; 0xAA; 0xAA; 0xd3; 0x91; 0xd3; 0x91;
             5; 5; 193; 193; 16; 16; 55; 55; 15; 15; 4; 4]]) = 0xC0 /\
  Forall (fun frame =>
            (exists msg, encode_frame (E := doubles) default_self msg
                         = Return frame) /\
            firstn (Z.to_nat 4 + 2 * Z.to_nat 2) frame =
              repeat 0xAA (Z.to_nat 4) ++ concat (repeat [0xd3; 0x91] (Z.to_nat 2)))
         (_out_buffer
            (set_out_buffer default_self
               [[0xAA; 0xAA; 0xAA; 0xAA; 0xd3; 0x91; 0xd3; 0x91;
                 9; 9; 193; 193; 2; 2; 2; 2; 175; 175;
                 200; 200; 20; 20; 51; 51; 128; 128; 11; 11];
                [0xAA; 0xAA; 0xAA; 0xAA; 0xd3; 0x91; 0xd3; 0x91;
                 5; 5; 193; 193; 16; 16; 55; 55; 15; 15; 4; 4]])).
Proof.
  assert (R : reachable (E := doubles) default_self
                (set_out_buffer default_self
                   [[0xAA; 0xAA; 0xAA; 0xAA; 0xd3; 0x91; 0xd3; 0x91;
                     9; 9; 193; 193; 2; 2; 2; 2; 175; 175;
                     200; 200; 20; 20; 51; 51; 128; 128; 11; 11];
                    [0xAA; 0xAA; 0xAA; 0xAA; 0xd3; 0x91; 0xd3; 0x91;
                     5; 5; 193; 193; 16; 16; 55; 55; 15; 15; 4; 4]])).
  { eapply reachable_step.
    - eapply reachable_step.
      + eapply reachable_step; [apply reachable_init |].
        apply (step_handle_msg default_self _ example_raw). reflexivity.
      + apply (step_handle_msg _ _ [0x12; 0x34]). reflexivity.
    - apply (step_work _ [7] []
               {| instance_after :=
                    set_out_buffer default_self
                      [[0xAA; 0xAA; 0xAA; 0xAA; 0xd3; 0x91; 0xd3; 0x91;
                        9; 9; 193; 193; 2; 2; 2; 2; 175; 175;
                        200; 200; 20; 20; 51; 51; 128; 128; 11; 11];
                       [0xAA; 0xAA; 0xAA; 0xAA; 0xd3; 0x91; 0xd3; 0x91;
                        5; 5; 193; 193; 16; 16; 55; 55; 15; 15; 4; 4]];
                  output_after := [];
                  events := [Printed []];
                  returned := 0 |}).
      reflexivity. }
  destruct (reachable_instances_keep_configuration_and_frames
              doubles 4 0xd3 0x91 2 0xC0 true true default_self _
              eq_refl R)
    as (_ & _ & _ & _ & Hf & _ & _ & _ & Hq).
  split; [exact Hf | exact Hq].
Defined.

(** X9: with NumPy's store, nothing ever leaves the queue: in every
    instance reached by calls of [handle_msg] and [work] that return, the
    entries of the starting instance are still queued, in place, followed
    by the frames accepted since. *)
Theorem queued_frames_are_never_removed :
  forall (E : Collaborators) (self0 self : openlst_mod),
    stores_like_numpy E ->
    reachable self0 self ->
    exists added,
      _out_buffer self = _out_buffer self0 ++ added /\
      Forall (fun frame => exists msg, encode_frame self0 msg = Return frame) added.
Proof.
  intros E self0 self HN HR.
  induction HR as [| s s' HR IH Hstep].
  - exists []. split; [symmetry; apply app_nil_r | constructor].
  - destruct IH as (added & Hq & Hall).
    pose proof (reachable_keeps_configuration _ _ HR) as [Hs _].
    destruct Hstep as [s s' msg H | s i o r H].
    + apply handle_msg_inv in H. destruct H as (frame & Hf & ->).
      exists (added ++ [frame]). cbn [_out_buffer set_out_buffer]. split.
      * rewrite Hq, app_assoc. reflexivity.
      * apply Forall_app. split; [exact Hall |].
        constructor; [| constructor].
        exists msg. rewrite Hs in Hf. exact Hf.
    + apply (work_returns_unchanged HN) in H. destruct H as (Hi & _).
      exists added. rewrite Hi. split; assumption.
Qed.

Lemma queued_frames_are_never_removed_witness :
  exists added,
    _out_buffer (set_out_buffer bare_instance
                   [ten_byte_frame; [0x04; 0xC0; 0x12; 0xD6; 0x00]])
      = _out_buffer (set_out_buffer bare_instance [ten_byte_frame]) ++ added /\
    Forall (fun frame =>
              exists msg,
                encode_frame (E := doubles)
                  (set_out_buffer bare_instance [ten_byte_frame]) msg = Return frame)
           added.
Proof.
  apply (queued_frames_are_never_removed doubles).
  - intros a n data. reflexivity.
  - eapply reachable_step.
    + eapply reachable_step; [apply reachable_init |].
      apply (step_handle_msg _ _ [0x12]). reflexivity.
    + apply (step_work _ [7] []
               {| instance_after :=
                    set_out_buffer bare_instance
                      [ten_byte_frame; [0x04; 0xC0; 0x12; 0xD6; 0x00]];
                  output_after := [];
                  events := [Printed []];
                  returned := 0 |}).
      reflexivity.
Defined.
